(** * pandas: SparseDtype and FrozenList

    A shallow embedding of two leaf modules of pandas,

    - [pandas/core/indexes/frozen.py]: the immutable list [FrozenList];
    - [pandas/core/arrays/sparse/dtype.py]: the descriptor [SparseDtype];

    together with the properties that their specification states about
    them.  Python objects live in an explicit store, methods are
    computations in a store-and-exception monad, and Python's dynamic
    types appear as small inductive universes. *)

From Stdlib Require Import ZArith String Ascii DecimalString.
From Stdlib Require Import Floats.SpecFloat.
From stdpp Require Import base list gmap strings.

Open Scope string_scope.
Open Scope list_scope.

(** ** Python exceptions *)

Module Py.

(** The exception classes that the two modules raise or let through,
    each with its message. *)
Inductive exception :=
| TypeError (msg : string)
| ValueError (msg : string)
| NameError (msg : string)
| SystemError (msg : string).

(** The double quote character (code 34) as a one-character string. *)
Definition dquote : string := String "034"%char "".

(** The single quote character (code 39) as a one-character string. *)
Definition squote : string := String "039"%char "".

(** The line feed character. *)
Definition newline : ascii := "010"%char.

End Py.

(** ** frozen.py: [FrozenList] *)

Module Frozen.
Import Py.

(** The classes of the sequence objects that meet a [FrozenList]:
    [list], [tuple], [FrozenList] itself, a subclass of [FrozenList], and
    any other ordered sequence (a [range], a [str], a [deque], an
    [ndarray]), which is neither a [list] nor a [tuple]. *)
Inductive pyclass :=
| cls_list
| cls_tuple
| cls_FrozenList
| cls_FrozenList_sub (name : string)
| cls_sequence (name : string).

(** [cls.__name__] *)
Definition tp_name (c : pyclass) : string :=
  match c with
  | cls_list => "list"
  | cls_tuple => "tuple"
  | cls_FrozenList => "FrozenList"
  | cls_FrozenList_sub n => n
  | cls_sequence n => n
  end.

(** [issubclass(c, FrozenList)] *)
Definition is_FrozenList (c : pyclass) : bool :=
  match c with
  | cls_FrozenList | cls_FrozenList_sub _ => true
  | _ => false
  end.

(** [issubclass(c, list)]: [FrozenList] derives from [list]. *)
Definition is_list (c : pyclass) : bool :=
  match c with
  | cls_list | cls_FrozenList | cls_FrozenList_sub _ => true
  | _ => false
  end.

(** [issubclass(c, tuple)] *)
Definition is_tuple (c : pyclass) : bool :=
  match c with
  | cls_tuple => true
  | _ => false
  end.

(** Store locations. *)
Definition loc := nat.

(** What the language asks of an item that goes into a [set] or is looked
    up in one: [hash(x)], which raises [TypeError] for an item that is not
    hashable (a list, a dict, a set), naming its class. *)
Class Hashing (A : Type) := {
  hashable : A → bool;
  type_name : A → string
}.

Section FrozenList.

(** The items are Python values that can be compared for equality. *)
Context {A : Type} `{Countable A}.

(** A sequence object: its class and its items. *)
Record object := Obj { ob_type : pyclass; ob_item : list A }.

(** The store: location [l] holds the [l]-th object; allocation
    appends. *)
Definition heap := list object.

(** Computations that read and extend the store and may raise. *)
Definition M (R : Type) : Type := heap → (exception + R) * heap.

Definition ret {R} (r : R) : M R := λ h, (inr r, h).

Definition bind {R S} (c : M R) (k : R → M S) : M S :=
  λ h, match c h with
       | (inl e, h') => (inl e, h')
       | (inr r, h') => k r h'
       end.

Definition raise {R} (e : exception) : M R := λ h, (inl e, h).

(** The object at a location. *)
Definition deref (l : loc) : M object :=
  λ h, match h !! l with
       | Some o => (inr o, h)
       | None => (inl (SystemError "dangling reference"), h)
       end.

(** A new object, at the first free location. *)
Definition alloc (o : object) : M loc :=
  λ h, (inr (length h), h ++ [o]).

Notation "'let!' x ':=' c 'in' k" := (bind c (λ x, k))
  (at level 10, x name, c at level 100, k at level 200).

(** [list.__add__(self, other)] of the language: the concatenation when
    [other] is a list, a [TypeError] otherwise. *)
Definition list_add (self other : object) : M (list A) :=
  if is_list (ob_type other) then ret (ob_item self ++ ob_item other)
  else raise (TypeError ("can only concatenate list (not " +:+ dquote +:+
                         tp_name (ob_type other) +:+ dquote +:+ ") to list")).

(** [list.__mul__(self, n)] of the language: [n] copies of the items, one
    after the other; none when [n <= 0]. *)
Definition list_mul (self : object) (n : Z) : list A :=
  mjoin (replicate (Z.to_nat n) (ob_item self)).

(** [list(other)] *)
Definition to_list (other : object) : object :=
  Obj cls_list (ob_item other).

(** [FrozenList.union] *)
Definition union (self other : loc) : M loc :=
  let! s := deref self in
  let! o := deref other in
  let o := if is_tuple (ob_type o) then to_list o else o in
  let! r := list_add s o in
  alloc (Obj (ob_type s) r).

Context `{Hashing A}.

Definition unhashable_msg (x : A) : string :=
  "unhashable type: " +:+ squote +:+ type_name x +:+ squote.

(** The first item that is not hashable. *)
Definition first_unhashable (items : list A) : option A :=
  List.find (λ x, negb (hashable x)) items.

(** The items are hashed one after the other, as building a set of them
    or looking each of them up in a set does: the first that is not
    hashable raises [TypeError]. *)
Definition hash_each (items : list A) : M unit :=
  match first_unhashable items with
  | Some x => raise (TypeError (unhashable_msg x))
  | None => ret ()
  end.

(** [FrozenList.difference]: [set(other)] hashes the items of [other],
    and [x not in other] hashes each item [x] of [self] in turn. *)
Definition difference (self other : loc) : M loc :=
  let! s := deref self in
  let! o := deref other in
  let! built := hash_each (ob_item o) in
  let other_set : gset A := list_to_set (ob_item o) in
  let! tested := hash_each (ob_item s) in
  let temp := filter (λ x, x ∉ other_set) (ob_item s) in
  alloc (Obj (ob_type s) temp).

(** [__add__ = __iadd__ = union] *)
Definition __add__ := union.
Definition __iadd__ := union.

(** [FrozenList.__mul__] *)
Definition __mul__ (self : loc) (other : Z) : M loc :=
  let! s := deref self in
  alloc (Obj (ob_type s) (list_mul s other)).


(** [FrozenList.__eq__]; [None] is [NotImplemented], which
    [list.__eq__] answers for an operand that is not a list. *)
Definition __eq__ (self other : loc) : M (option bool) :=
  let! s := deref self in
  let! o := deref other in
  let o := if is_tuple (ob_type o) || is_FrozenList (ob_type o)
           then to_list o else o in
  if is_list (ob_type o)
  then ret (Some (bool_decide (ob_item s = ob_item o)))
  else ret None.

(** Arguments of the disabled methods: anything. *)
Inductive pyarg :=
| arg_int (z : Z)
| arg_elem (a : A)
| arg_ref (l : loc)
| arg_none.

Definition immutable_msg (c : pyclass) : string :=
  squote +:+ tp_name c +:+ squote +:+ " does not support mutable operations.".

(** [FrozenList._disabled] *)
Definition _disabled (self : loc) (args : list pyarg) : M unit :=
  let! s := deref self in
  raise (TypeError (immutable_msg (ob_type s))).

Definition __setslice__ := _disabled.
Definition __delslice__ := _disabled.

Definition extend := _disabled.

(** An augmented assignment [x op= arg], where [op=] is implemented by
    the method [meth]: the variable [x] is bound to what the call
    returns. *)
Definition aug_assign {B} (meth : loc → B → M loc) (x : string) (arg : B)
    (ρ : gmap string loc) : M (gmap string loc) :=
  match ρ !! x with
  | None => raise (NameError ("name " +:+ squote +:+ x +:+ squote +:+ " is not defined"))
  | Some l => let! l' := meth l arg in ret (<[x:=l']> ρ)
  end.

(** [x += other] *)
Definition iadd_stmt := aug_assign __iadd__.


(** The error of a disabled method. *)
Definition ImmutableContainer (e : exception) : Prop :=
  ∃ c, e = TypeError (immutable_msg c).

(** *** Subscripts, pickling and the frame *)

(** The exceptions of a subscript: [IndexError], and those above. *)
Inductive lookup_exception :=
| IndexError (msg : string)
| raised (e : exception).

(** What stands between the brackets: an integer, or a slice
    [start:stop:step], each part of which may be [None]. *)
Inductive subscript :=
| sub_index (i : Z)
| sub_slice (start stop step : option Z).

(** The indices of a slice in a sequence of [len] items, as the language
    adjusts them: the first index, the step and the number of items.  A
    negative bound counts from the end, a bound outside the sequence is
    clamped, a missing bound is the end that the direction of the step
    starts from or runs to. *)
Definition slice_adjust (len : Z) (start stop step : option Z)
    : exception + (Z * Z * Z) :=
  let step := default 1%Z step in
  if (step =? 0)%Z then inl (ValueError "slice step cannot be zero")
  else
    let lower := if (step <? 0)%Z then (-1)%Z else 0%Z in
    let upper := if (step <? 0)%Z then (len - 1)%Z else len in
    let clamp i := if (i <? 0)%Z then Z.max (i + len) lower else Z.min i upper in
    let start :=
      match start with
      | None => if (step <? 0)%Z then upper else lower
      | Some i => clamp i
      end in
    let stop :=
      match stop with
      | None => if (step <? 0)%Z then lower else upper
      | Some i => clamp i
      end in
    let n :=
      if (step <? 0)%Z
      then (if (stop <? start)%Z then ((start - stop - 1) / (- step) + 1)%Z else 0%Z)
      else (if (start <? stop)%Z then ((stop - start - 1) / step + 1)%Z else 0%Z) in
    inr (start, step, n).

(** [list.__getitem__(self, slice)] of the language: the items at
    [start], [start + step], and so on. *)
Definition list_slice (self : object) (start stop step : option Z)
    : exception + list A :=
  match slice_adjust (Z.of_nat (length (ob_item self))) start stop step with
  | inl e => inl e
  | inr (start, step, n) =>
      inr (omap (λ i, ob_item self !! Z.to_nat (start + i * step)) (seqZ 0 n))
  end.

(** [list.__getitem__(self, i)] of the language: a negative index counts
    from the end; an index outside the list is an [IndexError]. *)
Definition list_item (self : object) (i : Z) : lookup_exception + A :=
  let len := Z.of_nat (length (ob_item self)) in
  let i := if (i <? 0)%Z then (i + len)%Z else i in
  if (i <? 0)%Z || (len <=? i)%Z then inl (IndexError "list index out of range")
  else
    match ob_item self !! Z.to_nat i with
    | Some x => inr x
    | None => inl (IndexError "list index out of range")
    end.

(** [FrozenList.__getitem__]: a slice gives a new object of the class of
    [self], an integer an item. *)
Definition __getitem__ (self : loc) (n : subscript)
    : heap → (lookup_exception + (A + loc)) * heap :=
  λ h,
    match deref self h with
    | (inl e, h') => (inl (raised e), h')
    | (inr s, h') =>
        match n with
        | sub_slice start stop step =>
            match list_slice s start stop step with
            | inl e => (inl (raised e), h')
            | inr items =>
                match alloc (Obj (ob_type s) items) h' with
                | (inl e, h'') => (inl (raised e), h'')
                | (inr l, h'') => (inr (inr l), h'')
                end
            end
        | sub_index i =>
            match list_item s i with
            | inl e => (inl e, h')
            | inr x => (inr (inl x), h')
            end
        end
    end.

(** [FrozenList.__reduce__]: the class and the list of the items, from
    which unpickling builds the object again. *)
Definition __reduce__ (self : loc) : M (pyclass * list A) :=
  let! s := deref self in
  ret (ob_type s, ob_item (to_list s)).

(** The call [cls(items)] that unpickling makes. *)
Definition reconstruct (r : pyclass * list A) : M loc :=
  alloc (Obj r.1 r.2).

End FrozenList.

(** The position in a sequence of [len] items that the bound [i] of a
    slice with a positive step denotes. *)
Definition slice_pos (len : nat) (i : Z) : nat :=
  Z.to_nat (if (i <? 0)%Z then Z.max (i + Z.of_nat len) 0 else Z.min i (Z.of_nat len)).

(** *** Integers, and items that are not hashable *)

(** Integers are hashable. *)
Global Instance Z_hashing : Hashing Z :=
  {| hashable := λ _, true; type_name := λ _, "int" |}.

(** Items that are integers or lists of integers; the lists are not
    hashable. *)
Inductive item :=
| item_int (z : Z)
| item_list (l : list Z).

Global Instance item_eq_dec : EqDecision item.
Proof. solve_decision. Defined.

Global Instance item_countable : Countable item :=
  inj_countable'
    (λ x, match x with item_int z => inl z | item_list l => inr l end)
    (λ y, match y with inl z => item_int z | inr l => item_list l end)
    (λ x, match x with item_int _ | item_list _ => eq_refl end).

Global Instance item_hashing : Hashing item :=
  {| hashable := λ x, match x with item_int _ => true | item_list _ => false end;
     type_name := λ x, match x with item_int _ => "int" | item_list _ => "list" end |}.

(** *** A store of integer sequences *)

(** [x = FrozenList([1, 2])] at location 0, the list [[3, 4]] at
    location 1, the tuple [(2, 2)] at 2 and [range(3, 5)] at 3. *)
Definition h0 : heap (A:=Z) :=
  [ Obj cls_FrozenList [1; 2]%Z;
    Obj cls_list [3; 4]%Z;
    Obj cls_tuple [2; 2]%Z;
    Obj (cls_sequence "range") [3; 4]%Z ].

Definition x12 : object (A:=Z) := Obj cls_FrozenList [1; 2]%Z.

End Frozen.

(** ** sparse/dtype.py: [SparseDtype] *)

Module Dtype.
Import Py.

Open Scope Z_scope.

(** *** Subtypes *)

(** The numpy dtypes that serve as subtypes: the element types of the
    table in the class docstring, with a second width for floats and
    integers, [object], and the text dtype that [SparseDtype] replaces by
    [object]. *)
Inductive np_dtype :=
| float64 | float32 | int64 | int32 | bool_ | object_
| datetime64_ns | timedelta64_ns | str_.

Global Instance np_dtype_eq_dec : EqDecision np_dtype.
Proof. solve_decision. Defined.

(** [numpy.dtype.name] *)
Definition dtype_name (d : np_dtype) : string :=
  match d with
  | float64 => "float64"
  | float32 => "float32"
  | int64 => "int64"
  | int32 => "int32"
  | bool_ => "bool"
  | object_ => "object"
  | datetime64_ns => "datetime64[ns]"
  | timedelta64_ns => "timedelta64[ns]"
  | str_ => "str"
  end.

(** [numpy.dtype.kind] *)
Definition dtype_kind (d : np_dtype) : string :=
  match d with
  | float64 | float32 => "f"
  | int64 | int32 => "i"
  | bool_ => "b"
  | object_ => "O"
  | datetime64_ns => "M"
  | timedelta64_ns => "m"
  | str_ => "U"
  end.

(** Modelled from the spec: [is_string_dtype], [is_object_dtype],
    [is_bool_dtype] of [pandas.core.dtypes.common], which is not among the
    sources; the text category holds the text dtype and [object]. *)
Definition is_string_dtype (d : np_dtype) : bool :=
  match d with object_ | str_ => true | _ => false end.

Definition is_object_dtype (d : np_dtype) : bool :=
  match d with object_ => true | _ => false end.

Definition is_bool_dtype (d : np_dtype) : bool :=
  match d with bool_ => true | _ => false end.

(** Modelled from the spec: [pandas_dtype] on a string, the canonical
    type-descriptor registry of [pandas.core.dtypes.common], which is not
    among the sources.  It knows the names of the dtypes above and the
    aliases [int] and [float] that the docstring of
    [construct_from_string] uses, and answers [TypeError] otherwise. *)
Definition dtype_of_string (s : string) : exception + np_dtype :=
  if decide (s = "float64") then inr float64
  else if decide (s = "float") then inr float64
  else if decide (s = "float32") then inr float32
  else if decide (s = "int64") then inr int64
  else if decide (s = "int") then inr int64
  else if decide (s = "int32") then inr int32
  else if decide (s = "bool") then inr bool_
  else if decide (s = "object") then inr object_
  else if decide (s = "O") then inr object_
  else if decide (s = "datetime64[ns]") then inr datetime64_ns
  else if decide (s = "M8[ns]") then inr datetime64_ns
  else if decide (s = "timedelta64[ns]") then inr timedelta64_ns
  else if decide (s = "m8[ns]") then inr timedelta64_ns
  else if decide (s = "str") then inr str_
  else inl (TypeError ("data type " +:+ squote +:+ s +:+ squote +:+ " not understood")).

(** What stands for a dtype that is not sparse: a numpy dtype or a
    string. *)
Inductive dtype_like :=
| like_np (d : np_dtype)
| like_str (s : string).

(** Modelled from the spec: [pandas_dtype], on a dtype that is not
    sparse. *)
Definition pandas_dtype (d : dtype_like) : exception + np_dtype :=
  match d with
  | like_np d => inr d
  | like_str s => dtype_of_string s
  end.

(** *** Scalars *)

(** Fill values: Python integers, booleans, floats (IEEE doubles; [np.nan]
    and [float('nan')] are the double NaN), the missing datetime [NaT], and
    strings. *)
Inductive scalar :=
| PyInt (z : Z)
| PyBool (b : bool)
| PyFloat (f : spec_float)
| NaT
| PyStr (s : string).

(** The float NaN, [np.nan]. *)
Definition nan : scalar := PyFloat S754_nan.

(** [float(z)], rounded to the nearest double. *)
Definition float_of_Z (z : Z) : spec_float := binary_normalize 53 1024 z 0 false.

(** The classes of the scalars: [type(x)]. *)
Inductive pytype := t_int | t_bool | t_float | t_NaTType | t_str.

Global Instance pytype_eq_dec : EqDecision pytype.
Proof. solve_decision. Defined.

Definition type_of (x : scalar) : pytype :=
  match x with
  | PyInt _ => t_int
  | PyBool _ => t_bool
  | PyFloat _ => t_float
  | NaT => t_NaTType
  | PyStr _ => t_str
  end.

(** [issubclass(a, b)]: [bool] derives from [int]. *)
Definition issubclass (a b : pytype) : bool :=
  bool_decide (a = b) || (bool_decide (a = t_bool) && bool_decide (b = t_int)).

(** [isinstance(x, t)] *)
Definition isinstance (x : scalar) (t : pytype) : bool :=
  issubclass (type_of x) t.

(** Modelled from the spec: [isna] of [pandas.core.dtypes.missing], the
    missing-value detection, which is not among the sources: NaN and NaT
    are missing. *)
Definition isna (x : scalar) : bool :=
  match x with
  | PyFloat S754_nan => true
  | NaT => true
  | _ => false
  end.

(** The integer that a double equals, if any. *)
Definition float_to_Z_exact (f : spec_float) : option Z :=
  match f with
  | S754_zero _ => Some 0
  | S754_finite s m e =>
      let v := if 0 <=? e then Some (Z.pos m * 2 ^ e)
               else if Z.pos m mod 2 ^ (- e) =? 0 then Some (Z.pos m / 2 ^ (- e))
               else None in
      (λ z : Z, if s then - z else z) <$> v
  | _ => None
  end.

(** A number as an integer or as a double that no integer equals. *)
Definition num_value (x : scalar) : option (Z + spec_float) :=
  match x with
  | PyInt z => Some (inl z)
  | PyBool b => Some (inl (if b then 1 else 0))
  | PyFloat f => Some (match float_to_Z_exact f with Some z => inl z | None => inr f end)
  | _ => None
  end.

(** [x == y] of the language: numbers compare by value, whatever their
    classes, NaN and NaT equal nothing, strings equal strings. *)
Definition py_eq (x y : scalar) : bool :=
  match x, y with
  | PyStr s, PyStr t => bool_decide (s = t)
  | _, _ =>
      match num_value x, num_value y with
      | Some (inl a), Some (inl b) => a =? b
      | Some (inr f), Some (inr g) => SFeqb f g
      | _, _ => false
      end
  end.

(** *** [str] of a scalar *)

(** [str(z)] of an integer. *)
Definition str_int (z : Z) : string := NilZero.string_of_int (Z.to_int z).

(** [c * 10^q] compared with [v * 2^e], exactly. *)
Definition cmp_dec_bin (c q v e : Z) : comparison :=
  (c * 10 ^ Z.max q 0 * 2 ^ Z.max (- e) 0 ?= v * 2 ^ Z.max e 0 * 10 ^ Z.max (- q) 0).

(** [floor(log10(m * 2^e))] for [m > 0]. *)
Definition floor_log10 (m e : Z) : Z :=
  let k := (Z.log2 m + e) * 30103 / 100000 in
  let k := if cmp_dec_bin 1 k m e is Gt then k - 1 else k in
  if cmp_dec_bin 1 (k + 1) m e is Gt then k else k + 1.

(** Does the decimal [c * 10^q] read back as the double [m * 2^e]?  The
    doubles next to it are [(m - 1) * 2^e] and [(m + 1) * 2^e], the one
    below being twice as near when [m] is the least mantissa of its binade;
    a decimal half way reads as the even mantissa. *)
Definition reads_back (m e c q : Z) : bool :=
  let lo := if (m =? 2 ^ 52) && (-1074 <? e) then 4 * m - 1 else 4 * m - 2 in
  let hi := 4 * m + 2 in
  match cmp_dec_bin c q lo (e - 2), cmp_dec_bin c q hi (e - 2) with
  | Gt, Lt => true
  | Eq, Lt | Gt, Eq => Z.even m
  | _, _ => false
  end.

(** [floor(m * 2^e / 10^q)] *)
Definition floor_scaled (m e q : Z) : Z :=
  (m * 2 ^ Z.max e 0 * 10 ^ Z.max (- q) 0) / (2 ^ Z.max (- e) 0 * 10 ^ Z.max q 0).

(** Is [c * 10^q] at least as near to [m * 2^e] as [(c + 1) * 10^q]? *)
Definition lower_is_nearer (m e c q : Z) : bool :=
  match cmp_dec_bin (2 * c + 1) q (2 * m) e with
  | Lt => false
  | _ => true
  end.

(** The shortest decimal [c * 10^q] that reads back as [m * 2^e], the
    nearest one of that length; [n] digits are tried first, then more. *)
Fixpoint shortest (fuel : nat) (n : Z) (m e k : Z) : Z * Z :=
  let q := k - n + 1 in
  let c := floor_scaled m e q in
  let lo_ok := reads_back m e c q in
  let hi_ok := reads_back m e (c + 1) q in
  match fuel with
  | O => (c, q)
  | S fuel' =>
      if lo_ok && hi_ok
      then (if lower_is_nearer m e c q then (c, q) else (c + 1, q))
      else if lo_ok then (c, q)
      else if hi_ok then (c + 1, q)
      else shortest fuel' (n + 1) m e k
  end.

(** Trailing zeros of [c] moved into the exponent. *)
Fixpoint strip_zeros (fuel : nat) (c q : Z) : Z * Z :=
  match fuel with
  | O => (c, q)
  | S fuel' =>
      if (c =? 0) || negb (c mod 10 =? 0) then (c, q)
      else strip_zeros fuel' (c / 10) (q + 1)
  end.

Fixpoint zeros (n : nat) : string :=
  match n with
  | O => ""
  | S n' => String "0" (zeros n')
  end.

(** [float.__repr__] on the positive finite double [m * 2^e]: the
    shortest digits that read back, with an exponent when the decimal point
    lies more than 16 places to the right or 4 places to the left. *)
Definition repr_positive (m e : Z) : string :=
  let '(c, q) := shortest 17 1 m e (floor_log10 m e) in
  let '(c, q) := strip_zeros 20 c q in
  let ds := str_int c in
  let nd := Z.of_nat (String.length ds) in
  let decpt := nd + q in
  if (decpt <=? -4) || (16 <? decpt) then
    let x := decpt - 1 in
    let mant := if nd =? 1 then ds
                else substring 0 1 ds +:+ "." +:+
                     substring 1 (String.length ds - 1) ds in
    let digits := str_int (Z.abs x) in
    mant +:+ "e" +:+ (if x <? 0 then "-" else "+") +:+
      (if Z.abs x <? 10 then "0" +:+ digits else digits)
  else if decpt <=? 0 then "0." +:+ zeros (Z.to_nat (- decpt)) +:+ ds
  else if decpt <? nd then
    substring 0 (Z.to_nat decpt) ds +:+ "." +:+
      substring (Z.to_nat decpt) (Z.to_nat (nd - decpt)) ds
  else ds +:+ zeros (Z.to_nat (decpt - nd)) +:+ ".0".

(** [str(f)] of a float. *)
Definition float_repr (f : spec_float) : string :=
  match f with
  | S754_nan => "nan"
  | S754_infinity false => "inf"
  | S754_infinity true => "-inf"
  | S754_zero false => "0.0"
  | S754_zero true => "-0.0"
  | S754_finite s m e => (if s then "-" else "") +:+ repr_positive (Z.pos m) e
  end.

(** [str(x)], which [format] writes for a scalar. *)
Definition py_str (x : scalar) : string :=
  match x with
  | PyInt z => str_int z
  | PyBool b => if b then "True" else "False"
  | PyFloat f => float_repr f
  | NaT => "NaT"
  | PyStr s => s
  end.

(** *** The class *)

(** An instance: the attributes [_dtype] and [_fill_value]. *)
Record SparseDtype := mk_SparseDtype { _dtype : np_dtype; _fill_value : scalar }.

(** The [dtype] argument: a dtype that is not sparse, or an instance. *)
Inductive dtype_arg :=
| plain (d : dtype_like)
| sparse (d : SparseDtype).

(** The [fill_value] argument: [None], a scalar, or an object that
    [is_scalar] rejects (a list, an array), given by its [str]. *)
Inductive fill_arg :=
| fill_none
| fill_scalar (v : scalar)
| fill_object (repr : string).

(** Modelled from the spec: [na_value_for_dtype] of
    [pandas.core.dtypes.missing], which is not among the sources: the table
    of the class docstring, float NaN, integer 0, bool False, datetime64 and
    timedelta64 NaT; a subtype outside the table has NaN. *)
Definition na_value_for_dtype (d : np_dtype) : scalar :=
  match d with
  | datetime64_ns | timedelta64_ns => NaT
  | float64 | float32 => nan
  | int64 | int32 => PyInt 0
  | bool_ => PyBool false
  | object_ | str_ => nan
  end.

(** [SparseDtype.fill_value], [SparseDtype.subtype] *)
Definition fill_value (self : SparseDtype) : scalar := _fill_value self.
Definition subtype (self : SparseDtype) : np_dtype := _dtype self.

(** [SparseDtype.__init__]: an instance gives its subtype and, for want of
    a fill value, its fill value; a text dtype becomes [object]; [None]
    becomes the default of the subtype, which is a scalar; an object that is
    not a scalar is refused. *)
Definition __init__ (dtype : dtype_arg) (fill : fill_arg) : exception + SparseDtype :=
  let '(dtype, fill) :=
    match dtype with
    | sparse d =>
        (like_np (subtype d),
         match fill with fill_none => fill_scalar (fill_value d) | _ => fill end)
    | plain d => (d, fill)
    end in
  match pandas_dtype dtype with
  | inl e => inl e
  | inr dtype =>
      let dtype := if is_string_dtype dtype then object_ else dtype in
      match fill with
      | fill_none => inr {| _dtype := dtype; _fill_value := na_value_for_dtype dtype |}
      | fill_scalar v => inr {| _dtype := dtype; _fill_value := v |}
      | fill_object r =>
          inl (ValueError ("fill_value must be a scalar. Got " +:+ r +:+ " instead"))
      end
  end.

(** [SparseDtype._is_na_fill_value] *)
Definition _is_na_fill_value (self : SparseDtype) : bool := isna (fill_value self).

(** [SparseDtype._is_numeric], [_is_boolean], [kind] *)
Definition _is_numeric (self : SparseDtype) : bool := negb (is_object_dtype (subtype self)).
Definition _is_boolean (self : SparseDtype) : bool := is_bool_dtype (subtype self).
Definition kind (self : SparseDtype) : string := dtype_kind (subtype self).

(** [SparseDtype.name] *)
Definition name (self : SparseDtype) : string :=
  "Sparse[" +:+ dtype_name (subtype self) +:+ ", " +:+ py_str (fill_value self) +:+ "]".

(** [SparseDtype.__repr__], and [__str__], which the base class defines
    as the name too. *)
Definition __repr__ (self : SparseDtype) : string := name self.
Definition __str__ (self : SparseDtype) : string := name self.

(** [SparseDtype._subtype_with_str]: the class [str] when the fill value
    is a string, the subtype otherwise. *)
Definition _subtype_with_str (self : SparseDtype) : pytype + np_dtype :=
  if isinstance (fill_value self) t_str then inl (type_of (fill_value self))
  else inr (subtype self).

(** *** Regular expressions *)

(** One-character patterns: a literal, [[^c]], and [.], which matches
    anything but a line feed. *)
Inductive cclass :=
| cc_lit (c : ascii)
| cc_not (c : ascii)
| cc_dot.

Definition cc_match (cc : cclass) (c : ascii) : bool :=
  match cc with
  | cc_lit a => Ascii.eqb a c
  | cc_not a => negb (Ascii.eqb a c)
  | cc_dot => negb (Ascii.eqb c newline)
  end.

(** The patterns that [_parse_subtype] uses. *)
Inductive regex :=
| re_lit (s : string)                        (* literal text *)
| re_star (cc : cclass)                      (* cc*, greedy *)
| re_star_lazy (cc : cclass)                 (* cc*?, lazy *)
| re_opt (r : regex)                         (* r?, greedy *)
| re_group (name : option string) (r : regex)  (* (r) and (?P<name>r) *)
| re_cat (r1 r2 : regex)
| re_eol.                                    (* $ *)

(** The text of the named groups that took part in a match. *)
Definition groups := list (string * string).

(** [s] without the prefix [p], if it starts with [p]. *)
Fixpoint strip_prefix (p s : string) : option string :=
  match p, s with
  | EmptyString, _ => Some s
  | String a p', String b s' => if Ascii.eqb a b then strip_prefix p' s' else None
  | String _ _, EmptyString => None
  end.

(** [$]: the end of the text, or the line feed that ends the text. *)
Definition at_end (s : string) : bool :=
  match s with
  | EmptyString => true
  | String c EmptyString => Ascii.eqb c newline
  | _ => false
  end.

(** The text that was consumed between [s] and its suffix [s']. *)
Definition consumed (s s' : string) : string :=
  substring 0 (String.length s - String.length s') s.

Definition set_group (name : option string) (text : string) (g : groups) : groups :=
  match name with
  | Some n => (n, text) :: g
  | None => g
  end.

(** [m.groupdict()[name]]; [None] for a group that took no part. *)
Fixpoint group (g : groups) (name : string) : option string :=
  match g with
  | [] => None
  | (n, text) :: g' => if decide (n = name) then Some text else group g' name
  end.

Section Backtracking.
Context {R : Type}.

(** [cc*]: as many characters as possible first, then fewer. *)
Fixpoint star_greedy (cc : cclass) (s : string) (k : string → option R) : option R :=
  match s with
  | String c s' =>
      if cc_match cc c then
        match star_greedy cc s' k with
        | Some r => Some r
        | None => k s
        end
      else k s
  | EmptyString => k s
  end.

(** [cc*?]: no character first, then more. *)
Fixpoint star_lazy (cc : cclass) (s : string) (k : string → option R) : option R :=
  match k s with
  | Some r => Some r
  | None =>
      match s with
      | String c s' => if cc_match cc c then star_lazy cc s' k else None
      | EmptyString => None
      end
  end.
End Backtracking.

(** The backtracking matcher: [run r s g k] matches [r] at the start of
    [s] and hands the rest of the text and the groups to [k]; when [k]
    fails, the next way of matching [r] is tried. *)
Fixpoint run (r : regex) (s : string) (g : groups)
    (k : string → groups → option groups) : option groups :=
  match r with
  | re_lit t =>
      match strip_prefix t s with
      | Some s' => k s' g
      | None => None
      end
  | re_star cc => star_greedy cc s (λ s', k s' g)
  | re_star_lazy cc => star_lazy cc s (λ s', k s' g)
  | re_opt r =>
      match run r s g k with
      | Some m => Some m
      | None => k s g
      end
  | re_group name r => run r s g (λ s' g', k s' (set_group name (consumed s s') g'))
  | re_cat r1 r2 => run r1 s g (λ s' g', run r2 s' g' k)
  | re_eol => if at_end s then k s g else None
  end.

(** [r.match(s)]: a match at the start of [s]. *)
Definition re_match (r : regex) (s : string) : option groups :=
  run r s [] (λ _ g, Some g).

(** The pattern of [_parse_subtype]: the text [Sparse], an opening
    bracket, the group [subtype] of characters other than a comma, an
    optional comma and space, the optional lazy group [fill_value], a
    closing bracket, [$]. *)
Definition xpr : regex :=
  re_cat (re_lit "Sparse[")
    (re_cat (re_group (Some "subtype") (re_star (cc_not ",")))
      (re_cat (re_opt (re_group None (re_lit ", ")))
        (re_cat (re_opt (re_group (Some "fill_value") (re_star_lazy cc_dot)))
          (re_cat (re_lit "]") re_eol)))).

(** *** Strings *)

(** [SparseDtype._parse_subtype]; [has_fill_value] is a string that is not
    empty, or [False], here [None]. *)
Definition _parse_subtype (dtype : string) : exception + (string * option string) :=
  match re_match xpr dtype with
  | Some m =>
      let subtype := default "" (group m "subtype") in
      let has_fill_value :=
        match group m "fill_value" with
        | Some (String c t) => Some (String c t)
        | _ => None
        end in
      inr (subtype, has_fill_value)
  | None =>
      if decide (dtype = "Sparse") then inr ("float64", None)
      else inl (ValueError ("Cannot parse " +:+ dtype))
  end.

Definition msg_could_not_construct (str : string) : string :=
  "Could not construct SparseDtype from " +:+ squote +:+ str +:+ squote.

Definition msg_fill_value_not_default (str : string) : string :=
  "Could not construct SparseDtype from " +:+ squote +:+ str +:+ squote +:+ "." +:+
  String newline (String newline
    ("It looks like the fill_value in the string is not the default for the dtype. "
     +:+ "Non-default fill_values are not supported. "
     +:+ "Use the 'SparseDtype()' constructor instead.")).

(** [SparseDtype.construct_from_string] *)
Definition construct_from_string (str : string) : exception + SparseDtype :=
  let msg := msg_could_not_construct str in
  if String.prefix "Sparse" str then
    match _parse_subtype str with
    | inl (ValueError _) => inl (TypeError msg)
    | inl e => inl e
    | inr (sub_type, has_fill_value) =>
        match __init__ (plain (like_str sub_type)) fill_none with
        | inl e => inl e
        | inr result =>
            if bool_decide (is_Some has_fill_value)
               && negb (String.eqb (__str__ result) str)
            then inl (TypeError (msg_fill_value_not_default str))
            else inr result
        end
    end
  else inl (TypeError msg).

(** The two errors of [construct_from_string], as the specification names
    them. *)
Definition ParseError (str : string) (e : exception) : Prop :=
  e = TypeError (msg_could_not_construct str).

Definition UnsupportedFillValue (str : string) (e : exception) : Prop :=
  e = TypeError (msg_fill_value_not_default str).

(** *** Equality and hash *)

(** The right operand of [==]: a string, an instance, anything else. *)
Inductive operand :=
| op_str (s : string)
| op_dtype (d : SparseDtype)
| op_other.

(** The part of [SparseDtype.__eq__] that compares two instances. *)
Definition eq_dtype (self other : SparseDtype) : bool :=
  let subtype := bool_decide (subtype self = subtype other) in
  let fill_value :=
    if _is_na_fill_value self then
      (_is_na_fill_value other
       && isinstance (fill_value self) (type_of (fill_value other)))
      || isinstance (fill_value other) (type_of (fill_value self))
    else py_eq (fill_value self) (fill_value other) in
  subtype && fill_value.

(** [SparseDtype.__eq__]: a string is first turned into an instance, a
    [TypeError] of that making the answer [False]. *)
Definition __eq__ (self : SparseDtype) (other : operand) : exception + bool :=
  match other with
  | op_str s =>
      match construct_from_string s with
      | inl (TypeError _) => inr false
      | inl e => inl e
      | inr other => inr (eq_dtype self other)
      end
  | op_dtype other => inr (eq_dtype self other)
  | op_other => inr false
  end.

(** [SparseDtype._metadata]: the attributes that the hash reads. *)
Definition _metadata (self : SparseDtype) : np_dtype * scalar * bool :=
  (_dtype self, _fill_value self, _is_na_fill_value self).

(** The hash of a component of the tuple: the integer that the language
    computes for a number, and the value itself for what it hashes by
    content or by identity. *)
Inductive hash_lane :=
| lane_num (z : Z)
| lane_str (s : string)
| lane_NaT.

(** [hash(z)] of an integer: the remainder modulo [2^61 - 1], with the sign
    of [z], and never -1. *)
Definition hash_int (z : Z) : Z :=
  let r := Z.abs z mod (2 ^ 61 - 1) in
  let h := if z <? 0 then - r else r in
  if h =? -1 then -2 else h.

(** [hash(f)] of a float: that of the integer or fraction it equals; NaN
    hashes to 0. *)
Definition hash_float (f : spec_float) : Z :=
  match f with
  | S754_nan => 0
  | S754_infinity s => if s then -314159 else 314159
  | S754_zero _ => 0
  | S754_finite s m e =>
      let r := (Z.pos m mod (2 ^ 61 - 1)) * 2 ^ (e mod 61) mod (2 ^ 61 - 1) in
      let h := if s then - r else r in
      if h =? -1 then -2 else h
  end.

Definition hash_scalar (x : scalar) : hash_lane :=
  match x with
  | PyInt z => lane_num (hash_int z)
  | PyBool b => lane_num (if b then 1 else 0)
  | PyFloat f => lane_num (hash_float f)
  | NaT => lane_NaT
  | PyStr s => lane_str s
  end.

(** Modelled from the spec: [ExtensionDtype.__hash__] of
    [pandas.core.dtypes.base], which is not among the sources and which
    [SparseDtype.__hash__] calls: the structural hash of the tuple of the
    [_metadata] attributes.  The hash of the tuple is given by the hashes of
    its three components; two tuples hash alike when these agree. *)
Definition __hash__ (self : SparseDtype) : np_dtype * hash_lane * hash_lane :=
  let '(dtype, fill_value, is_na) := _metadata self in
  (dtype, hash_scalar fill_value, hash_scalar (PyBool is_na)).

(** *** Conversion *)

Section UpdateDtype.

(** [astype_nansafe(np.array(v), dtype).item()], the cast of the scalar
    [v] to [dtype] by [pandas.core.dtypes.cast], which is not among the
    sources. *)
Variable astype_nansafe_item : scalar → np_dtype → exception + scalar.

(** [SparseDtype.update_dtype]; [pandas_dtype] returns an instance as it
    is. *)
Definition update_dtype (self : SparseDtype) (dtype : dtype_arg)
    : exception + SparseDtype :=
  match dtype with
  | sparse d => inr d
  | plain d =>
      match pandas_dtype d with
      | inl e => inl e
      | inr dtype =>
          match astype_nansafe_item (fill_value self) dtype with
          | inl e => inl e
          | inr fill_value => __init__ (plain (like_np dtype)) (fill_scalar fill_value)
          end
      end
  end.

End UpdateDtype.

(** Modelled from the spec: the type-safe cast, on the numbers.  An
    integer or a boolean becomes the nearest double, a finite double is
    truncated to an integer, NaN and the infinities are refused for an
    integer subtype with [ValueError], everything is an object and has a text;
    the casts of strings and of datetimes are left out and are refused
    here. *)
Definition wrap (bits : Z) (z : Z) : Z :=
  (z + 2 ^ (bits - 1)) mod 2 ^ bits - 2 ^ (bits - 1).

Definition trunc_float (f : spec_float) : option Z :=
  match f with
  | S754_zero _ => Some 0
  | S754_finite s m e =>
      let v := if 0 <=? e then Z.pos m * 2 ^ e else Z.pos m / 2 ^ (- e) in
      Some (if s then - v else v)
  | _ => None
  end.

Definition to_single (f : spec_float) : spec_float :=
  match f with
  | S754_finite s m e =>
      match binary_normalize 24 128 (Z.pos m) e false with
      | S754_finite _ m' e' =>
          match binary_normalize 53 1024 (Z.pos m') e' false with
          | S754_finite _ m'' e'' => S754_finite s m'' e''
          | g => g
          end
      | S754_zero _ => S754_zero s
      | S754_infinity _ => S754_infinity s
      | S754_nan => S754_nan
      end
  | _ => f
  end.

Definition numeric_cast (v : scalar) (dtype : np_dtype) : exception + scalar :=
  let refused := inl (TypeError ("cannot cast " +:+ py_str v +:+ " to " +:+ dtype_name dtype)) in
  match dtype with
  | object_ => inr v
  | float64 | float32 =>
      let round := if decide (dtype = float32) then to_single else id in
      match v with
      | PyInt z => inr (PyFloat (round (float_of_Z z)))
      | PyBool b => inr (PyFloat (round (float_of_Z (if b then 1 else 0))))
      | PyFloat f => inr (PyFloat (round f))
      | _ => refused
      end
  | int64 | int32 =>
      let bits := if decide (dtype = int32) then 32 else 64 in
      match v with
      | PyInt z => inr (PyInt (wrap bits z))
      | PyBool b => inr (PyInt (if b then 1 else 0))
      | PyFloat f =>
          match trunc_float f with
          | Some z => inr (PyInt (wrap bits z))
          | None => inl (ValueError "Cannot convert non-finite values (NA or inf) to integer")
          end
      | _ => refused
      end
  | bool_ =>
      match v with
      | PyInt z => inr (PyBool (negb (z =? 0)))
      | PyBool b => inr (PyBool b)
      | PyFloat f => inr (PyBool (negb (SFeqb f (S754_zero false))))
      | _ => refused
      end
  | str_ => inr (PyStr (py_str v))
  | datetime64_ns | timedelta64_ns => refused
  end.

(** The modulus of the hash of a number. *)
Abbreviation P61 := (2 ^ 61 - 1).

(** The hash of a number given as an integer or as a double. *)
Definition hash_num (v : Z + spec_float) : Z :=
  match v with inl z => hash_int z | inr f => hash_float f end.

(** *** Strings of the form [Sparse[<subtype>, <fill_value>]] *)

Close Scope Z_scope.

(** All the characters of [s] satisfy [p]. *)
Fixpoint all_chars (p : ascii → bool) (s : string) : bool :=
  match s with
  | EmptyString => true
  | String c s' => p c && all_chars p s'
  end.

Definition sparse_form (sub fv : string) : string :=
  "Sparse[" +:+ sub +:+ ", " +:+ fv +:+ "]".

(** *** [is_dtype] *)

(** The argument of [is_dtype]: a string, an instance, a numpy dtype, an
    object with a [dtype] attribute (an array), or anything else. *)
Inductive dtype_operand :=
| any_str (s : string)
| any_sparse (d : SparseDtype)
| any_np (d : np_dtype)
| any_array (d : np_dtype + SparseDtype)
| any_other.

Section IsDtype.

(** [numpy.dtype] applied to a string is numpy's own resolution of a name,
    which is no part of these sources: [is_dtype] is given over any such
    resolver, which returns a numpy dtype or raises. *)
Variable numpy_dtype : string → exception + np_dtype.

(** [SparseDtype.is_dtype] *)
Definition is_dtype (dtype : dtype_operand) : exception + bool :=
  let dtype :=
    match dtype with
    | any_array (inl d) => any_np d
    | any_array (inr d) => any_sparse d
    | _ => dtype
    end in
  match dtype with
  | any_str s =>
      if String.prefix "Sparse" s then
        match _parse_subtype s with
        | inl e => inl e
        | inr (sub_type, _) =>
            match numpy_dtype sub_type with
            | inl e => inl e
            | inr _ => inr true
            end
        end
      else inr (bool_decide (s = "Sparse"))
  | any_sparse _ => inr true
  | any_np _ => inr true
  | any_array _ => inr false
  | any_other => inr false
  end.

End IsDtype.

(** The end of the pattern of [_parse_subtype]: the optional group
    [fill_value], the closing bracket, [$]. *)
Definition xpr_tail : regex :=
  re_cat (re_opt (re_group (Some "fill_value") (re_star_lazy cc_dot)))
    (re_cat (re_lit "]") re_eol).

(** *** The equality of the specification *)

(** The two fill values are of compatible kinds: one is an instance of
    the class of the other. *)
Definition compatible_kinds (x y : scalar) : bool :=
  isinstance x (type_of y) || isinstance y (type_of x).

(** Equality as the specification words it: equal subtypes, and either
    two missing fill values of compatible kinds or fill values that are
    equal by value. *)
Definition eq_spec (a b : SparseDtype) : bool :=
  bool_decide (subtype a = subtype b)
  && ((isna (fill_value a) && isna (fill_value b)
       && compatible_kinds (fill_value a) (fill_value b))
      || py_eq (fill_value a) (fill_value b)).

(** Where [__eq__] leaves the specification: the left fill value is
    missing, the right one is not, and the right one is an instance of the
    class of the left one. *)
Definition slip (a b : SparseDtype) : bool :=
  bool_decide (subtype a = subtype b)
  && isna (fill_value a) && negb (isna (fill_value b))
  && isinstance (fill_value b) (type_of (fill_value a)).

(** *** Some instances *)

Definition sparse_float64_nan : SparseDtype := mk_SparseDtype float64 nan.
Definition sparse_float64_zero : SparseDtype :=
  mk_SparseDtype float64 (PyFloat (S754_zero false)).
Definition sparse_datetime64_NaT : SparseDtype := mk_SparseDtype datetime64_ns NaT.

End Dtype.

(** ** Properties of [FrozenList] *)

Module FrozenProps.
Import Py Frozen.

Section Generic.
Context {A : Type} `{Countable A} `{Hashing A}.
Implicit Types (h : heap (A:=A)) (s o : object (A:=A)).

Lemma deref_Some h l o : h !! l = Some o → deref l h = (inr o, h).
Proof. intros Hl. unfold deref. by rewrite Hl. Qed.

(** Allocation leaves every object of the store where it is. *)
Lemma alloc_preserves h o l o' :
  h !! l = Some o' → (h ++ [o]) !! l = Some o'.
Proof. intros Hl. by apply lookup_app_l_Some. Qed.

(** A location of the store is not the one allocation returns. *)
Lemma alloc_fresh h l o : h !! l = Some o → length h ≠ l.
Proof. intros Hl%lookup_lt_Some. lia. Qed.





Lemma union_run h self other s o :
  h !! self = Some s → h !! other = Some o →
  union self other h =
    if is_list (ob_type o) || is_tuple (ob_type o)
    then (inr (length h), h ++ [Obj (ob_type s) (ob_item s ++ ob_item o)])
    else (inl (TypeError ("can only concatenate list (not " +:+ dquote +:+
                           tp_name (ob_type o) +:+ dquote +:+ ") to list")), h).
Proof.
  intros Hs Ho. unfold union, bind.
  rewrite (deref_Some _ _ _ Hs), (deref_Some _ _ _ Ho).
  destruct o as [c items]; destruct c; reflexivity.
Qed.

Lemma concat_error_not_immutable name :
  ¬ ImmutableContainer
      (TypeError ("can only concatenate list (not " +:+ dquote +:+
                  name +:+ dquote +:+ ") to list")).
Proof. intros [c Hc]. simpl in Hc. discriminate. Qed.

Lemma first_unhashable_app (l1 l2 : list A) :
  first_unhashable (l1 ++ l2) =
    match first_unhashable l1 with
    | Some x => Some x
    | None => first_unhashable l2
    end.
Proof.
  unfold first_unhashable. induction l1 as [|x l1 IH]; simpl; [done|].
  by destruct (negb (hashable x)).
Qed.

Lemma first_unhashable_None (l : list A) :
  forallb hashable l = true → first_unhashable l = None.
Proof.
  unfold first_unhashable. induction l as [|x l IH]; simpl; [done|].
  intros [-> Hl]%andb_true_iff. simpl. auto.
Qed.


(** What a call of [difference] does: the first item of [other], or else
    of [self], that is not hashable raises; without one, the items of [self]
    that are not in [other] make the new object. *)
Lemma difference_run h self other s o :
  h !! self = Some s → h !! other = Some o →
  difference self other h =
    match first_unhashable (ob_item o ++ ob_item s) with
    | Some x => (inl (TypeError (unhashable_msg x)), h)
    | None =>
        (inr (length h),
         h ++ [Obj (ob_type s) (filter (λ x, x ∉ ob_item o) (ob_item s))])
    end.
Proof.
  intros Hs Ho. unfold difference, bind.
  rewrite (deref_Some _ _ _ Hs), (deref_Some _ _ _ Ho), first_unhashable_app.
  unfold hash_each, raise, ret, alloc.
  destruct (first_unhashable (ob_item o)); [done|].
  destruct (first_unhashable (ob_item s)); [done|].
  do 4 f_equal. apply list_filter_iff. intros x.
  by rewrite elem_of_list_to_set.
Qed.

Lemma difference_run_hashable h self other s o :
  h !! self = Some s → h !! other = Some o →
  forallb hashable (ob_item s) = true →
  forallb hashable (ob_item o) = true →
  difference self other h =
    (inr (length h),
     h ++ [Obj (ob_type s) (filter (λ x, x ∉ ob_item o) (ob_item s))]).
Proof.
  intros Hs Ho Hhs Hho. rewrite (difference_run _ _ _ _ _ Hs Ho).
  rewrite first_unhashable_None; [done|].
  rewrite forallb_app. by rewrite Hho, Hhs.
Qed.


(** Where [union] does return: for a [FrozenList] [s] and an [other] that
    is a list or a tuple (a [FrozenList] is a list), [s.union(other)] is a
    new object of the class of [s] whose items are those of [s] followed by
    those of [other]; no object of the store changes. *)
Lemma frozen_union_list_or_tuple h self other s o :
  h !! self = Some s →
  h !! other = Some o →
  is_FrozenList (ob_type s) = true →
  is_list (ob_type o) || is_tuple (ob_type o) = true →
  let h' := h ++ [Obj (ob_type s) (ob_item s ++ ob_item o)] in
  union self other h = (inr (length h), h')
  ∧ h' !! length h = Some (Obj (ob_type s) (ob_item s ++ ob_item o))
  ∧ length h ≠ self
  ∧ h' !! self = Some s
  ∧ (∀ l o', h !! l = Some o' → h' !! l = Some o').
Proof.
  intros Hs Ho _ Hcls h'. repeat split.
  - rewrite (union_run _ _ _ _ _ Hs Ho). by rewrite Hcls.
  - subst h'. by rewrite lookup_app_r, Nat.sub_diag.
  - by eapply alloc_fresh.
  - by apply alloc_preserves.
  - intros l o' Hl. by apply alloc_preserves.
Qed.


(** C10.  [x += other] on a [FrozenList] is [union]: it runs the same
    code, never raises the error of immutable containers, leaves the
    object that [x] named as it was, and, for a list or tuple [other],
    binds [x] to a new object of the same class holding the items of the
    old one followed by those of [other]. *)
Theorem frozen_iadd_is_union (ρ : gmap string loc) h x self other s o :
  ρ !! x = Some self →
  h !! self = Some s →
  h !! other = Some o →
  is_FrozenList (ob_type s) = true →
  __iadd__ self other h = union self other h
  ∧ iadd_stmt x other ρ h =
      match union self other h with
      | (inr l', h') => (inr (<[x:=l']> ρ), h')
      | (inl e, h') => (inl e, h')
      end
  ∧ (∀ e h', iadd_stmt x other ρ h = (inl e, h') → ¬ ImmutableContainer e)
  ∧ (∀ r h', iadd_stmt x other ρ h = (r, h') → h' !! self = Some s)
  ∧ (is_list (ob_type o) || is_tuple (ob_type o) = true →
     iadd_stmt x other ρ h =
       (inr (<[x:=length h]> ρ),
        h ++ [Obj (ob_type s) (ob_item s ++ ob_item o)])
     ∧ length h ≠ self).
Proof.
  intros Hx Hs Ho _.
  assert (Hstmt : iadd_stmt x other ρ h =
      match union self other h with
      | (inr l', h') => (inr (<[x:=l']> ρ), h')
      | (inl e, h') => (inl e, h')
      end).
  { unfold iadd_stmt, aug_assign, __iadd__, bind. rewrite Hx.
    destruct (union self other h) as [[e|l'] h']; reflexivity. }
  split; [reflexivity|]. split; [exact Hstmt|].
  rewrite Hstmt, (union_run _ _ _ _ _ Hs Ho).
  destruct (is_list (ob_type o) || is_tuple (ob_type o)); repeat split.
  - intros e h' [=]. 
  - intros r h' [= <- <-]. by apply alloc_preserves.
  - by eapply alloc_fresh.
  - intros e h' [= <- <-]. apply concat_error_not_immutable.
  - intros r h' [= <- <-]. done.
  - discriminate.
  - discriminate.
Qed.

End Generic.

(** *** Integer elements: the examples of the specification *)



Lemma frozen_union_list_or_tuple_witness :
  union 0 1 h0 = (inr 4, h0 ++ [Obj cls_FrozenList [1; 2; 3; 4]%Z]).
Proof.
  apply (frozen_union_list_or_tuple h0 0 1 x12 (Obj cls_list [3; 4]%Z)
           eq_refl eq_refl eq_refl eq_refl).
Defined.

(** [FrozenList([1, 2]).union([3, 4]) == FrozenList([1, 2, 3, 4])], and
    the operand still equals [FrozenList([1, 2])]. *)
Example union_then_eq :
  let h := [x12; Obj cls_list [3; 4]%Z; Obj cls_FrozenList [1; 2; 3; 4]%Z] in
  let h' := h ++ [Obj cls_FrozenList [1; 2; 3; 4]%Z] in
  union 0 1 h = (inr 3, h')
  ∧ __eq__ 3 2 h' = (inr (Some true), h')
  ∧ __eq__ 0 0 h' = (inr (Some true), h')
  ∧ h' !! 0 = Some x12.
Proof. vm_compute. auto. Qed.

(** C6 fails on the code.  The docstring of [union] takes [other] for an
    array-like, as that of [difference] does, and [difference] accepts the
    [range] below; but [FrozenList([1, 2]).union(range(3, 5))] raises
    [TypeError] and returns nothing: only a tuple is turned into a list
    before [list.__add__], which refuses every operand that is not a
    list. *)
Theorem frozen_union_range_raises :
  h0 !! 3 = Some (Obj (cls_sequence "range") [3; 4]%Z)
  ∧ union 0 3 h0 =
      (inl (TypeError ("can only concatenate list (not " +:+ dquote +:+
                       "range" +:+ dquote +:+ ") to list")), h0)
  ∧ ¬ (∃ l h', union 0 3 h0 = (inr l, h'))
  ∧ difference 0 3 h0 = (inr 4, h0 ++ [Obj cls_FrozenList [1; 2]%Z]).
Proof.
  split; [reflexivity|]. split; [reflexivity|]. split.
  - intros (l & h' & Hrun). discriminate Hrun.
  - by rewrite (difference_run_hashable h0 0 3 x12 (Obj (cls_sequence "range") [3; 4]%Z)).
Qed.



(** [FrozenList([1, 2, 3]).difference([2])] is [FrozenList([1, 3])]. *)
Example difference_example :
  difference 0 1 [Obj cls_FrozenList [1; 2; 3]%Z; Obj cls_list [2%Z]] =
    (inr 2, [Obj cls_FrozenList [1; 2; 3]%Z; Obj cls_list [2%Z];
             Obj cls_FrozenList [1; 3]%Z]).
Proof. vm_compute. reflexivity. Qed.

(** [FrozenList([1, 2]) * 2] is [FrozenList([1, 2, 1, 2])]. *)
Example mul_example :
  __mul__ 0 2 [x12] = (inr 1, [x12; Obj cls_FrozenList [1; 2; 1; 2]%Z]).
Proof. reflexivity. Qed.

Lemma frozen_iadd_is_union_witness :
  iadd_stmt "x" 1 {["x" := 0]} h0 =
    (inr (<["x" := 4]> {["x" := 0]}),
     h0 ++ [Obj cls_FrozenList [1; 2; 3; 4]%Z]).
Proof.
  assert (Hx : ({["x" := 0]} : gmap string loc) !! "x" = Some 0)
    by (vm_compute; reflexivity).
  apply (frozen_iadd_is_union {["x" := 0]} h0 "x" 0 1 x12
           (Obj cls_list [3; 4]%Z) Hx eq_refl eq_refl eq_refl).
  reflexivity.
Defined.

(** *** Subscripts and composition *)

Section Algebra.
Context {A : Type} `{Countable A} `{Hashing A}.
Implicit Types (h : heap (A:=A)) (s o : object (A:=A)) (l : list A).



Lemma omap_seqZ_forward l (lo k : nat) :
  (lo + k ≤ length l)%nat →
  omap (λ i : Z, l !! Z.to_nat (Z.of_nat lo + i * 1)) (seqZ 0 (Z.of_nat k))
    = take k (drop lo l).
Proof.
  induction k as [|k IH]; intros Hk; [by rewrite take_0|].
  rewrite seqZ_S, omap_app, IH by lia. simpl.
  replace (Z.to_nat (Z.of_nat lo + (0 + Z.of_nat k) * 1)) with (lo + k) by lia.
  destruct (lookup_lt_is_Some_2 l (lo + k)) as [x Hx]; [lia|].
  rewrite Hx. simpl. symmetry. apply take_S_r. by rewrite lookup_drop.
Qed.

Lemma omap_seqZ_backward l :
  omap (λ i : Z, l !! Z.to_nat (Z.of_nat (length l) - 1 + i * -1))
       (seqZ 0 (Z.of_nat (length l)))
    = reverse l.
Proof.
  induction l as [|x l IH]; [done|].
  rewrite reverse_cons, <- IH. cbn [length]. rewrite seqZ_S, omap_app. f_equal.
  - apply list_omap_ext. apply Forall2_same_length_lookup. split; [done|].
    intros j y z Hy Hz. rewrite Hy in Hz. injection Hz as <-.
    apply lookup_seqZ in Hy as [-> Hj].
    replace (Z.to_nat (Z.of_nat (S (length l)) - 1 + (0 + Z.of_nat j) * -1))
      with (S (Z.to_nat (Z.of_nat (length l) - 1 + (0 + Z.of_nat j) * -1))) by lia.
    done.
  - simpl.
    replace (Z.to_nat (Z.of_nat (S (length l)) - 1 + (0 + Z.of_nat (length l)) * -1))
      with 0 by lia.
    done.
Qed.

Lemma getitem_slice_run h self s a b :
  h !! self = Some s →
  let n := length (ob_item s) in
  let lo := from_option (slice_pos n) 0 a in
  let hi := from_option (slice_pos n) n b in
  __getitem__ self (sub_slice a b None) h =
    (inr (inr (length h)),
     h ++ [Obj (ob_type s) (take (hi - lo) (drop lo (ob_item s)))]).
Proof.
  intros Hs n lo hi. unfold __getitem__. rewrite (deref_Some _ _ _ Hs).
  assert (Hslice : list_slice s a b None = inr (take (hi - lo) (drop lo (ob_item s)))).
  { unfold list_slice, slice_adjust. fold n. simpl.
    assert (Hlo : (match a with
                   | Some i => if (i <? 0)%Z then Z.max (i + Z.of_nat n) 0
                               else Z.min i (Z.of_nat n)
                   | None => 0
                   end = Z.of_nat lo)%Z).
    { subst lo. destruct a as [i|]; [|done]. unfold slice_pos; simpl.
      destruct (i <? 0)%Z eqn:Hi; [lia|]. apply Z.ltb_ge in Hi. lia. }
    assert (Hhi : (match b with
                   | Some i => if (i <? 0)%Z then Z.max (i + Z.of_nat n) 0
                               else Z.min i (Z.of_nat n)
                   | None => Z.of_nat n
                   end = Z.of_nat hi)%Z).
    { subst hi. destruct b as [i|]; [|done]. unfold slice_pos; simpl.
      destruct (i <? 0)%Z eqn:Hi; [lia|]. apply Z.ltb_ge in Hi. lia. }
    assert (Hhin : (hi ≤ n)%nat).
    { subst hi. destruct b as [i|]; [|done]. unfold slice_pos; simpl.
      destruct (i <? 0)%Z eqn:Hi; [apply Z.ltb_lt in Hi|apply Z.ltb_ge in Hi]; lia. }
    rewrite Hlo, Hhi. f_equal.
    destruct (Z.of_nat lo <? Z.of_nat hi)%Z eqn:Hlt.
    - apply Z.ltb_lt in Hlt.
      replace ((Z.of_nat hi - Z.of_nat lo - 1) / 1 + 1)%Z with (Z.of_nat (hi - lo))
        by (rewrite Z.div_1_r; lia).
      apply omap_seqZ_forward. subst n. lia.
    - apply Z.ltb_ge in Hlt. replace (hi - lo) with 0 by lia. by rewrite take_0. }
  rewrite Hslice. done.
Qed.

(** X3.  [x[a:b]], with bounds that may be negative, beyond the ends or
    [None]: a new object of the class of [x] that holds the items from the
    position of [a] up to the position of [b], none when the second is not
    after the first; it never raises, the items are a part of those of [x]
    in their order, and [x] stays as it is. *)
Theorem frozen_getitem_slice h self s a b :
  h !! self = Some s →
  let n := length (ob_item s) in
  let lo := from_option (slice_pos n) 0 a in
  let hi := from_option (slice_pos n) n b in
  let r := take (hi - lo) (drop lo (ob_item s)) in
  __getitem__ self (sub_slice a b None) h =
    (inr (inr (length h)), h ++ [Obj (ob_type s) r])
  ∧ length r = hi - lo
  ∧ sublist r (ob_item s)
  ∧ (h ++ [Obj (ob_type s) r]) !! self = Some s.
Proof.
  intros Hs n lo hi r. split; [by apply getitem_slice_run|].
  assert (Hhi : (hi ≤ n)%nat).
  { subst hi. destruct b as [i|]; [|done]. unfold slice_pos; simpl.
    destruct (i <? 0)%Z eqn:Hi; [apply Z.ltb_lt in Hi|apply Z.ltb_ge in Hi]; lia. }
  split; [|split].
  - subst r. rewrite length_take, length_drop. fold n. lia.
  - subst r. etrans; [apply sublist_take|apply sublist_drop].
  - by apply alloc_preserves.
Qed.

(** X4.  [x[::-1]] is a new object of the class of [x] that holds the
    items of [x] in reverse order. *)
Theorem frozen_getitem_reverse h self s :
  h !! self = Some s →
  __getitem__ self (sub_slice None None (Some (-1)%Z)) h =
    (inr (inr (length h)), h ++ [Obj (ob_type s) (reverse (ob_item s))]).
Proof.
  intros Hs. unfold __getitem__. rewrite (deref_Some _ _ _ Hs).
  assert (Hslice : list_slice s None None (Some (-1)%Z) = inr (reverse (ob_item s))).
  { unfold list_slice, slice_adjust. simpl. f_equal.
    set (n := length (ob_item s)).
    destruct (-1 <? Z.of_nat n - 1)%Z eqn:Hlt.
    - apply Z.ltb_lt in Hlt. change (- -1)%Z with 1%Z.
      replace ((Z.of_nat n - 1 - -1 - 1) / 1 + 1)%Z with (Z.of_nat n)
        by (rewrite Z.div_1_r; lia).
      apply omap_seqZ_backward.
    - apply Z.ltb_ge in Hlt. destruct (ob_item s); [done|]. simpl in n. lia. }
  rewrite Hslice. done.
Qed.


Lemma lookup_alloc h o : (h ++ [o]) !! length h = Some o.
Proof. by rewrite lookup_app_r, Nat.sub_diag. Qed.

Lemma eq_run h self other s o :
  h !! self = Some s → h !! other = Some o →
  __eq__ self other h =
    (inr (if is_list (ob_type o) || is_tuple (ob_type o)
          then Some (bool_decide (ob_item s = ob_item o)) else None), h).
Proof.
  intros Hs Ho. unfold __eq__, bind.
  rewrite (deref_Some _ _ _ Hs), (deref_Some _ _ _ Ho).
  destruct o as [c items]; destruct c; reflexivity.
Qed.

(** X5.  [x[:k] + x[k:] == x] for every integer [k], negative or beyond
    the ends: the two slices are new objects, their union is a third, and it
    equals [x]. *)
Theorem frozen_slices_rejoin h self s k :
  h !! self = Some s →
  is_FrozenList (ob_type s) = true →
  let p := slice_pos (length (ob_item s)) k in
  let h1 := h ++ [Obj (ob_type s) (take p (ob_item s))] in
  let h2 := h1 ++ [Obj (ob_type s) (drop p (ob_item s))] in
  let h3 := h2 ++ [Obj (ob_type s) (ob_item s)] in
  __getitem__ self (sub_slice None (Some k) None) h = (inr (inr (length h)), h1)
  ∧ __getitem__ self (sub_slice (Some k) None None) h1 = (inr (inr (length h1)), h2)
  ∧ union (length h) (length h1) h2 = (inr (length h2), h3)
  ∧ __eq__ (length h2) self h3 = (inr (Some true), h3).
Proof.
  intros Hs Hcls p h1 h2 h3.
  assert (Hp : (p ≤ length (ob_item s))%nat).
  { subst p. unfold slice_pos.
    destruct (k <? 0)%Z eqn:Hk; [apply Z.ltb_lt in Hk|apply Z.ltb_ge in Hk]; lia. }
  assert (Hlist : is_list (ob_type s) = true) by (by destruct (ob_type s)).
  split; [|split; [|split]].
  - rewrite (getitem_slice_run _ _ _ _ _ Hs). simpl.
    by rewrite Nat.sub_0_r.
  - rewrite (getitem_slice_run h1 self s); [|by apply alloc_preserves]. simpl.
    fold p. by rewrite take_ge by (rewrite length_drop; lia).
  - rewrite (union_run h2 _ _ (Obj (ob_type s) (take p (ob_item s)))
               (Obj (ob_type s) (drop p (ob_item s)))).
    + simpl. rewrite Hlist. simpl. by rewrite take_drop.
    + apply alloc_preserves, lookup_alloc.
    + apply lookup_alloc.
  - rewrite (eq_run h3 _ _ (Obj (ob_type s) (ob_item s)) s).
    + rewrite Hlist. simpl. by rewrite bool_decide_eq_true_2.
    + apply lookup_alloc.
    + by do 3 apply alloc_preserves.
Qed.

Lemma filter_not_in_nil l l' :
  (∀ x, x ∈ l' → x ∈ l) → filter (λ x, x ∉ l) l' = [].
Proof.
  induction l' as [|y l' IH]; intros Hin; [done|].
  rewrite filter_cons_False; [|intros Hy; apply Hy, Hin; by left].
  apply IH. intros x Hx. apply Hin. by right.
Qed.

Lemma forallb_filter (P : A → Prop) `{∀ x, Decision (P x)} (f : A → bool) l :
  forallb f l = true → forallb f (filter P l) = true.
Proof.
  induction l as [|x l IH]; simpl; [done|].
  intros [Hx Hl]%andb_true_iff. destruct (decide (P x)).
  - rewrite filter_cons_True by done. simpl. by rewrite Hx, IH.
  - rewrite filter_cons_False by done. auto.
Qed.

(** X6.  What [union] appends, [difference] takes away again: for
    hashable items, [x.union(other).difference(other)] has the items of
    [x.difference(other)]; and [difference] twice is [difference] once. *)
Theorem frozen_union_then_difference h self other s o :
  h !! self = Some s →
  h !! other = Some o →
  is_list (ob_type o) || is_tuple (ob_type o) = true →
  forallb hashable (ob_item s) = true →
  forallb hashable (ob_item o) = true →
  let r := filter (λ x, x ∉ ob_item o) (ob_item s) in
  bind (union self other) (λ u, difference u other) h =
    (inr (S (length h)),
     h ++ [Obj (ob_type s) (ob_item s ++ ob_item o)] ++ [Obj (ob_type s) r])
  ∧ bind (difference self other) (λ d, difference d other) h =
    (inr (S (length h)), h ++ [Obj (ob_type s) r] ++ [Obj (ob_type s) r]).
Proof.
  intros Hs Ho Hcls Hhs Hho r. split; unfold bind at 1.
  - rewrite (union_run _ _ _ _ _ Hs Ho), Hcls.
    rewrite (difference_run_hashable _ (length h) other
               (Obj (ob_type s) (ob_item s ++ ob_item o)) o);
      [|apply lookup_alloc|by apply alloc_preserves
       |simpl; rewrite forallb_app; by rewrite Hhs, Hho|done].
    rewrite length_app, Nat.add_1_r, <- app_assoc. simpl.
    rewrite filter_app, (filter_not_in_nil (ob_item o) (ob_item o)), app_nil_r; done.
  - rewrite (difference_run_hashable _ _ _ _ _ Hs Ho Hhs Hho).
    rewrite (difference_run_hashable _ (length h) other (Obj (ob_type s) r) o);
      [|apply lookup_alloc|by apply alloc_preserves
       |by apply forallb_filter|done].
    rewrite length_app, Nat.add_1_r, <- app_assoc. simpl.
    assert (Hidem : filter (λ x, x ∉ ob_item o) r = r).
    { subst r. rewrite list_filter_filter. apply list_filter_iff. tauto. }
    by rewrite Hidem.
Qed.

(** X7.  For hashable items, the difference of a sequence with itself is
    empty, and the difference with an empty sequence is a copy; with an item
    that is not hashable, the difference of a sequence with itself raises
    [TypeError]. *)
Theorem frozen_difference_self_empty h self other s o :
  h !! self = Some s →
  h !! other = Some o →
  (forallb hashable (ob_item s) = true →
   difference self self h = (inr (length h), h ++ [Obj (ob_type s) []])
   ∧ (ob_item o = [] →
      difference self other h = (inr (length h), h ++ [Obj (ob_type s) (ob_item s)])))
  ∧ (∀ x, first_unhashable (ob_item s) = Some x →
       difference self self h = (inl (TypeError (unhashable_msg x)), h)).
Proof.
  intros Hs Ho. split.
  - intros Hhs. split.
    + rewrite (difference_run_hashable _ _ _ _ _ Hs Hs Hhs Hhs).
      by rewrite (filter_not_in_nil (ob_item s) (ob_item s)).
    + intros Hnil.
      rewrite (difference_run_hashable _ _ _ _ _ Hs Ho Hhs) by (by rewrite Hnil).
      rewrite Hnil. do 4 f_equal. induction (ob_item s) as [|x l IH]; [done|].
      simpl in Hhs. apply andb_true_iff in Hhs as [_ Hhs].
      rewrite filter_cons_True by apply not_elem_of_nil. by rewrite IH.
  - intros x Hx. rewrite (difference_run _ _ _ _ _ Hs Hs), first_unhashable_app.
    by rewrite Hx.
Qed.



(** X9.  [x == other] compares the items and not the classes when
    [other] is a list, a tuple or a [FrozenList], so that a [FrozenList]
    equals the tuple of its items; it answers [NotImplemented] for any other
    operand; it leaves the store as it is; a [FrozenList] equals itself, and
    between two of them the order of the operands does not matter. *)
Theorem frozen_eq_compares_items h self other s o :
  h !! self = Some s →
  h !! other = Some o →
  is_FrozenList (ob_type s) = true →
  __eq__ self other h =
    (inr (if is_list (ob_type o) || is_tuple (ob_type o)
          then Some (bool_decide (ob_item s = ob_item o)) else None), h)
  ∧ __eq__ self self h = (inr (Some true), h)
  ∧ (is_FrozenList (ob_type o) = true → __eq__ other self h = __eq__ self other h).
Proof.
  intros Hs Ho Hcls.
  assert (Hlist : is_list (ob_type s) = true) by (by destruct (ob_type s)).
  split; [by apply eq_run|]. split.
  - rewrite (eq_run _ _ _ _ _ Hs Hs), Hlist. simpl.
    by rewrite bool_decide_eq_true_2.
  - intros Hcls'.
    assert (Hlist' : is_list (ob_type o) = true) by (by destruct (ob_type o)).
    rewrite (eq_run _ _ _ _ _ Hs Ho), (eq_run _ _ _ _ _ Ho Hs), Hlist, Hlist'. simpl.
    do 3 f_equal. apply bool_decide_ext. naive_solver.
Qed.

(** X10.  Pickling round trip: the call that [__reduce__] describes
    builds a new object with the class and the items of the original, which
    equals it. *)
Theorem frozen_reduce_reconstruct h self s :
  h !! self = Some s →
  is_FrozenList (ob_type s) = true →
  bind (__reduce__ self) reconstruct h = (inr (length h), h ++ [s])
  ∧ __eq__ (length h) self (h ++ [s]) = (inr (Some true), h ++ [s]).
Proof.
  intros Hs Hcls. split.
  - unfold bind, __reduce__, bind. rewrite (deref_Some _ _ _ Hs). by destruct s.
  - rewrite (eq_run _ _ _ s s); [|apply lookup_alloc|by apply alloc_preserves].
    assert (is_list (ob_type s) = true) as -> by (by destruct (ob_type s)).
    simpl. by rewrite bool_decide_eq_true_2.
Qed.

End Algebra.


Lemma frozen_getitem_slice_witness :
  __getitem__ 0 (sub_slice (Some (-1)%Z) (Some 9%Z) None) h0 =
    (inr (inr 4), h0 ++ [Obj cls_FrozenList [2%Z]]).
Proof.
  destruct (frozen_getitem_slice h0 0 x12 (Some (-1)%Z) (Some 9%Z) eq_refl) as [Hrun _].
  exact Hrun.
Defined.

Lemma frozen_getitem_reverse_witness :
  __getitem__ 0 (sub_slice None None (Some (-1)%Z)) h0 =
    (inr (inr 4), h0 ++ [Obj cls_FrozenList [2; 1]%Z]).
Proof. exact (frozen_getitem_reverse h0 0 x12 eq_refl). Defined.

Lemma frozen_slices_rejoin_witness :
  ∃ h3,
    union 4 5 (h0 ++ [Obj cls_FrozenList [1%Z]] ++ [Obj cls_FrozenList [2%Z]]) = (inr 6, h3)
    ∧ __eq__ 6 0 h3 = (inr (Some true), h3).
Proof.
  destruct (frozen_slices_rejoin h0 0 x12 1 eq_refl eq_refl) as (_ & _ & Hunion & Heq).
  eexists. split; [exact Hunion|exact Heq].
Defined.

Lemma frozen_union_then_difference_witness :
  bind (union 0 1) (λ u, difference u 1) h0 =
    (inr 5, h0 ++ [Obj cls_FrozenList [1; 2; 3; 4]%Z] ++ [Obj cls_FrozenList [1; 2]%Z]).
Proof.
  assert (Hs : forallb hashable (ob_item x12) = true) by reflexivity.
  assert (Ho : forallb hashable (ob_item (Obj cls_list [3; 4]%Z)) = true)
    by reflexivity.
  destruct (frozen_union_then_difference h0 0 1 x12 (Obj cls_list [3; 4]%Z)
              eq_refl eq_refl eq_refl Hs Ho) as [Hrun _].
  exact Hrun.
Defined.

Lemma frozen_difference_self_empty_witness :
  difference 0 0 h0 = (inr 4, h0 ++ [Obj cls_FrozenList []])
  ∧ (let h := [Obj cls_FrozenList [item_int 1; item_list [2%Z]]] in
     difference 0 0 h = (inl (TypeError "unhashable type: 'list'"), h)).
Proof.
  destruct (frozen_difference_self_empty h0 0 1 x12 (Obj cls_list [3; 4]%Z)
              eq_refl eq_refl) as [Hok _].
  destruct (frozen_difference_self_empty
              [Obj cls_FrozenList [item_int 1; item_list [2%Z]]] 0 0
              (Obj cls_FrozenList [item_int 1; item_list [2%Z]])
              (Obj cls_FrozenList [item_int 1; item_list [2%Z]])
              eq_refl eq_refl) as [_ Hraise].
  split.
  - destruct (Hok eq_refl) as [Hrun _]. exact Hrun.
  - exact (Hraise (item_list [2%Z]) eq_refl).
Defined.


Lemma frozen_eq_compares_items_witness :
  __eq__ 0 2 h0 = (inr (Some false), h0) ∧ __eq__ 0 3 h0 = (inr None, h0).
Proof.
  destruct (frozen_eq_compares_items h0 0 2 x12 (Obj cls_tuple [2; 2]%Z)
              eq_refl eq_refl eq_refl) as [Htuple _].
  destruct (frozen_eq_compares_items h0 0 3 x12 (Obj (cls_sequence "range") [3; 4]%Z)
              eq_refl eq_refl eq_refl) as [Hrange _].
  split; [exact Htuple|exact Hrange].
Defined.

Lemma frozen_reduce_reconstruct_witness :
  bind (__reduce__ 0) reconstruct h0 = (inr 4, h0 ++ [x12]).
Proof.
  destruct (frozen_reduce_reconstruct h0 0 x12 eq_refl eq_refl) as [Hrun _].
  exact Hrun.
Defined.

End FrozenProps.

(** ** Properties of [SparseDtype] *)

Module DtypeProps.
Import Py Dtype.

(** *** Construction *)

(** A subtype is never the text dtype. *)
Lemma init_subtype_not_str a f d : __init__ a f = inr d → subtype d ≠ str_.
Proof.
  unfold __init__.
  destruct a as [l|d0]; [destruct (pandas_dtype l) as [e|dt] eqn:Hp|];
    [discriminate| |simpl pandas_dtype; set (dt := subtype d0)];
    (destruct dt, f; simpl; intros [= <-]; simpl; discriminate).
Qed.

(** *** Equality *)

Lemma py_eq_na_l x y : isna x = true → py_eq x y = false.
Proof.
  destruct x as [z|b|f| |s]; try discriminate; [|by destruct y].
  destruct f; try discriminate. intros _.
  destruct y as [z|b|g| |t]; try reflexivity.
  unfold py_eq, num_value; simpl. by destruct (float_to_Z_exact g).
Qed.

(** [__eq__] on two instances is the equality of the specification,
    except on the slip. *)
Lemma eq_dtype_spec_or_slip a b : eq_dtype a b = eq_spec a b || slip a b.
Proof.
  unfold eq_dtype, eq_spec, slip, compatible_kinds, _is_na_fill_value.
  destruct (bool_decide (subtype a = subtype b)); simpl; [|reflexivity].
  destruct (isna (fill_value a)) eqn:Ha; simpl.
  - rewrite (py_eq_na_l _ _ Ha).
    destruct (isna (fill_value b)), (isinstance (fill_value a) _),
      (isinstance (fill_value b) _); reflexivity.
  - by rewrite orb_false_r.
Qed.

Section Hash.
Open Scope Z_scope.

(** [2^61] is 1 modulo [2^61 - 1]. *)
Lemma pow2_61_mod k : 0 ≤ k → 2 ^ (61 * k) mod P61 = 1.
Proof.
  intros Hk. rewrite Z.pow_mul_r by lia.
  pattern k. apply natlike_ind; [reflexivity| |exact Hk].
  intros n Hn IH. rewrite Z.pow_succ_r by done.
  rewrite Z.mul_mod, IH by lia. reflexivity.
Qed.

Lemma pow2_mod_61 e : 0 ≤ e → 2 ^ e mod P61 = 2 ^ (e mod 61) mod P61.
Proof.
  intros He. rewrite (Z.div_mod e 61) at 1 by lia.
  rewrite Z.pow_add_r; [|apply Z.mul_nonneg_nonneg; [lia|apply Z.div_pos; lia]|apply Z.mod_pos_bound; lia].
  rewrite Z.mul_mod, pow2_61_mod by (try apply Z.div_pos; lia).
  rewrite Z.mul_1_l. apply Z.mod_mod. lia.
Qed.

Lemma hash_mantissa_nonneg m e :
  0 ≤ e → (m mod P61 * 2 ^ (e mod 61)) mod P61 = (m * 2 ^ e) mod P61.
Proof.
  intros He. rewrite Z.mul_mod_idemp_l by lia.
  rewrite (Z.mul_mod m (2 ^ e)), pow2_mod_61, <- Z.mul_mod by lia. done.
Qed.

Lemma hash_mantissa_neg q e :
  e < 0 → ((q * 2 ^ (- e)) mod P61 * 2 ^ (e mod 61)) mod P61 = q mod P61.
Proof.
  intros He. rewrite Z.mul_mod_idemp_l by lia.
  assert (Hmod : 0 ≤ e mod 61 < 61) by (apply Z.mod_pos_bound; lia).
  rewrite <- Z.mul_assoc, <- Z.pow_add_r by lia.
  replace (- e + e mod 61) with (61 * (- (e / 61))).
  2:{ pose proof (Z.div_mod e 61). lia. }
  rewrite Z.mul_mod, pow2_61_mod by (pose proof (Z.div_mod e 61); nia).
  rewrite Z.mul_1_r. apply Z.mod_mod. lia.
Qed.

(** A double that equals an integer has the hash of the integer. *)
Lemma hash_float_exact f z : float_to_Z_exact f = Some z → hash_float f = hash_int z.
Proof.
  destruct f as [s|s| |s m e]; try discriminate.
  - intros [= <-]. reflexivity.
  - unfold float_to_Z_exact, hash_float, hash_int.
    assert (Hm : 0 < Z.pos m) by lia.
    destruct (0 <=? e) eqn:He.
    + apply Z.leb_le in He. intros [= <-].
      assert (Hv : 0 < Z.pos m * 2 ^ e) by (apply Z.mul_pos_pos; [lia|apply Z.pow_pos_nonneg; lia]).
      rewrite hash_mantissa_nonneg by done.
      destruct s.
      * rewrite Z.abs_opp, Z.abs_eq by lia.
        destruct (- (Z.pos m * 2 ^ e) <? 0) eqn:Hs; [done|]. apply Z.ltb_ge in Hs. lia.
      * rewrite Z.abs_eq by lia.
        destruct (Z.pos m * 2 ^ e <? 0) eqn:Hs; [|done]. apply Z.ltb_lt in Hs. lia.
    + apply Z.leb_gt in He.
      destruct (Z.pos m mod 2 ^ (- e) =? 0) eqn:Hdiv; [|discriminate].
      apply Z.eqb_eq in Hdiv. intros [= <-].
      assert (Hp : 0 < 2 ^ (- e)) by (apply Z.pow_pos_nonneg; lia).
      set (q := Z.pos m / 2 ^ (- e)).
      assert (Hq : Z.pos m = q * 2 ^ (- e)).
      { pose proof (Z.div_mod (Z.pos m) (2 ^ (- e))). subst q. lia. }
      assert (Hq0 : 0 < q) by nia.
      clearbody q. rewrite Hq, hash_mantissa_neg by done.
      destruct s.
      * rewrite Z.abs_opp, Z.abs_eq by lia.
        destruct (- q <? 0) eqn:Hs; [done|]. apply Z.ltb_ge in Hs. lia.
      * rewrite Z.abs_eq by lia.
        destruct (q <? 0) eqn:Hs; [|done]. apply Z.ltb_lt in Hs. lia.
Qed.

Lemma hash_float_SFeqb f g : SFeqb f g = true → hash_float f = hash_float g.
Proof.
  unfold SFeqb, SFcompare.
  destruct f as [s|s| |s m e], g as [s'|s'| |s' m' e']; try discriminate;
    try reflexivity; try (by destruct s, s'); try (by destruct s); try (by destruct s').
  destruct s, s'; try discriminate;
    (destruct (e ?= e') eqn:He; try discriminate;
     apply Z.compare_eq in He as ->;
     destruct (Pos.compare_cont Eq m m') eqn:Hm; try discriminate;
     apply Pos.compare_eq in Hm as ->; reflexivity).
Qed.

Lemma hash_scalar_num x v : num_value x = Some v → hash_scalar x = lane_num (hash_num v).
Proof.
  destruct x as [z|b|f| |s]; try discriminate; intros [= <-]; simpl.
  - reflexivity.
  - by destruct b.
  - destruct (float_to_Z_exact f) eqn:Hf; simpl; [|done].
    by rewrite (hash_float_exact _ _ Hf).
Qed.

(** Scalars that are equal hash alike. *)
Lemma py_eq_hash x y : py_eq x y = true → hash_scalar x = hash_scalar y.
Proof.
  assert (Hnum : match num_value x, num_value y with
                 | Some (inl a), Some (inl b) => a =? b
                 | Some (inr f), Some (inr g) => SFeqb f g
                 | _, _ => false
                 end = true → hash_scalar x = hash_scalar y).
  { destruct (num_value x) as [[a|f]|] eqn:Hx; try discriminate;
      destruct (num_value y) as [[b|g]|] eqn:Hy; try discriminate; intros Heq;
      rewrite (hash_scalar_num _ _ Hx), (hash_scalar_num _ _ Hy); simpl.
    - apply Z.eqb_eq in Heq. by subst.
    - by rewrite (hash_float_SFeqb _ _ Heq). }
  destruct x as [z|b|f| |s], y as [z'|b'|f'| |s']; try exact Hnum.
  simpl. intros Heq%bool_decide_eq_true. by subst.
Qed.

Lemma py_eq_na_r x y : isna y = true → py_eq x y = false.
Proof.
  destruct y as [z|b|f| |s]; try discriminate.
  - destruct f; try discriminate. intros _.
    destruct x as [z|b|g| |t]; try reflexivity;
      unfold py_eq, num_value; simpl; try by destruct b.
    destruct (float_to_Z_exact g); [done|]. unfold SFeqb, SFcompare. by destruct g.
  - intros _. destruct x as [z|b|g| |t]; try reflexivity.
    unfold py_eq, num_value; simpl. by destruct (float_to_Z_exact g).
Qed.

(** The hash is consistent with the equality of the specification. *)
Lemma eq_spec_hash a b : eq_spec a b = true → __hash__ a = __hash__ b.
Proof.
  unfold eq_spec, __hash__, _metadata, _is_na_fill_value, fill_value, subtype.
  destruct a as [dt x], b as [dt' y]; simpl.
  intros [Hdt%bool_decide_eq_true Hfill]%andb_true_iff. subst dt'.
  apply orb_true_iff in Hfill as [Hna|Heq].
  - apply andb_true_iff in Hna as [[Hx Hy]%andb_true_iff Hc].
    rewrite Hx, Hy.
    destruct x as [ | |f| | ]; try discriminate; destruct y as [ | |g| | ]; try discriminate;
      try (destruct f; discriminate); try (destruct g; discriminate); try reflexivity.
    destruct f, g; try discriminate; reflexivity.
  - rewrite (py_eq_hash _ _ Heq).
    destruct (isna x) eqn:Hx; [by rewrite (py_eq_na_l _ _ Hx) in Heq|].
    destruct (isna y) eqn:Hy; [by rewrite (py_eq_na_r _ _ Hy) in Heq|]. done.
Qed.

End Hash.

(** [SparseDtype(float64, NaN) == SparseDtype(float64, float('nan'))], and
    [SparseDtype(float64, NaN) != SparseDtype(datetime64, NaT)]. *)
Example eq_nan_nan_ne_NaT :
  __eq__ sparse_float64_nan (op_dtype (mk_SparseDtype float64 (PyFloat S754_nan)))
    = inr true
  ∧ __eq__ sparse_float64_nan (op_dtype sparse_datetime64_NaT) = inr false
  ∧ __eq__ sparse_float64_nan (op_dtype (mk_SparseDtype float64 NaT)) = inr false.
Proof. repeat split. Qed.

(** C1 fails on the code.  [SparseDtype(float64, NaN) ==
    SparseDtype(float64, 0.0)] is [True], although 0.0 is not missing and
    does not equal NaN: in [__eq__] the last [isinstance] test is not
    under the test that the other fill value is missing.  The other way
    round the two are unequal. *)
Theorem eq_nan_zero_is_true :
  __eq__ sparse_float64_nan (op_dtype sparse_float64_zero) = inr true
  ∧ eq_spec sparse_float64_nan sparse_float64_zero = false
  ∧ isna (fill_value sparse_float64_zero) = false
  ∧ py_eq (fill_value sparse_float64_nan) (fill_value sparse_float64_zero) = false
  ∧ __eq__ sparse_float64_zero (op_dtype sparse_float64_nan) = inr false.
Proof. repeat split. Qed.

(** C2 fails on the code.  [SparseDtype(float64, NaN)] and
    [SparseDtype(float64, 0.0)] are equal for [__eq__], and their hashes
    differ: the tuples that are hashed differ in [_is_na_fill_value]. *)
Theorem eq_nan_zero_hash_differs :
  __eq__ sparse_float64_nan (op_dtype sparse_float64_zero) = inr true
  ∧ __hash__ sparse_float64_nan = (float64, lane_num 0, lane_num 1)
  ∧ __hash__ sparse_float64_zero = (float64, lane_num 0, lane_num 0)
  ∧ __hash__ sparse_float64_nan ≠ __hash__ sparse_float64_zero.
Proof. repeat split. discriminate. Qed.

(** *** Strings *)

Lemma parse_subtype_error s e :
  _parse_subtype s = inl e → e = ValueError ("Cannot parse " +:+ s).
Proof.
  unfold _parse_subtype. destruct (re_match xpr s); [discriminate|].
  destruct (decide (s = "Sparse")); [discriminate|]. by intros [= <-].
Qed.

Lemma dtype_of_string_error s e :
  dtype_of_string s = inl e →
  e = TypeError ("data type " +:+ squote +:+ s +:+ squote +:+ " not understood").
Proof.
  unfold dtype_of_string.
  repeat (case_decide; [discriminate|]). by intros [= <-].
Qed.

(** The default instance of a subtype given by a string. *)
Lemma init_of_string sub :
  __init__ (plain (like_str sub)) fill_none =
    match dtype_of_string sub with
    | inl e => inl e
    | inr dt =>
        let dt := if is_string_dtype dt then object_ else dt in
        inr (mk_SparseDtype dt (na_value_for_dtype dt))
    end.
Proof. unfold __init__; simpl. by destruct (dtype_of_string sub). Qed.

(** [construct_from_string] raises nothing but [TypeError]. *)
Lemma construct_from_string_error s e :
  construct_from_string s = inl e → ∃ msg, e = TypeError msg.
Proof.
  unfold construct_from_string.
  destruct (String.prefix "Sparse" s); [|intros [= <-]; eauto].
  destruct (_parse_subtype s) as [e'|[sub has]] eqn:Hparse.
  - apply parse_subtype_error in Hparse as ->. intros [= <-]; eauto.
  - rewrite init_of_string.
    destruct (dtype_of_string sub) as [e'|dt] eqn:Hdt.
    + apply dtype_of_string_error in Hdt as ->. intros [= <-]; eauto.
    + cbv zeta.
      cbv beta iota.
      match goal with |- (if ?c then inl _ else _) = _ → _ => destruct c end;
        [intros [= <-]; eauto | discriminate].
Qed.

Lemma length_append (p t : string) :
  String.length (p +:+ t) = (String.length p + String.length t)%nat.
Proof. induction p as [|c p IH]; simpl; [done|]. by rewrite IH. Qed.

Lemma substring_prefix (p t : string) : substring 0 (String.length p) (p +:+ t) = p.
Proof.
  induction p as [|c p IH]; simpl; [by destruct t|]. by rewrite IH.
Qed.

Lemma consumed_append (p t : string) : consumed (p +:+ t) t = p.
Proof.
  unfold consumed. rewrite length_append.
  replace (String.length p + String.length t - String.length t)%nat
    with (String.length p) by lia.
  apply substring_prefix.
Qed.

Lemma star_greedy_stops {R} cc (p t : string) (k : string → option R) r :
  all_chars (cc_match cc) p = true →
  match t with String c _ => cc_match cc c = false | EmptyString => True end →
  k t = Some r →
  star_greedy cc (p +:+ t) k = Some r.
Proof.
  intros Hp Ht Hk. induction p as [|c p IH]; simpl in *.
  - destruct t as [|c t]; simpl; [done|]. by rewrite Ht.
  - apply andb_true_iff in Hp as [-> Hp]. by rewrite IH.
Qed.

Lemma star_lazy_first {R} cc (p t : string) (k : string → option R) :
  all_chars (cc_match cc) p = true →
  (∀ q, q ≠ EmptyString → k (q +:+ t) = None) →
  star_lazy cc (p +:+ t) k = match k t with
                             | Some r => Some r
                             | None => star_lazy cc t k
                             end.
Proof.
  intros Hp Hk. induction p as [|c p IH]; simpl in *.
  - destruct t; simpl; by destruct (k _).
  - apply andb_true_iff in Hp as [Hc Hp].
    assert (Hk1 : k (String c (p +:+ t)) = None) by (by apply (Hk (String c p))).
    rewrite Hk1, Hc. by apply IH.
Qed.

(** After a text that is not empty, a closing bracket does not end the
    text. *)
Lemma not_at_end_bracket (q : string) : at_end (q +:+ "]") = false.
Proof. destruct q as [|c [|c' q]]; reflexivity. Qed.

Lemma closing_needs_end (q s' : string) :
  q ≠ EmptyString → strip_prefix "]" (q +:+ "]") = Some s' → at_end s' = false.
Proof.
  intros Hq. destruct q as [|c q]; [done|].
  change (String c q +:+ "]") with (String c (q +:+ "]")).
  cbn [strip_prefix]. destruct (Ascii.eqb "]" c); [|done].
  intros [= <-]. apply not_at_end_bracket.
Qed.

Lemma strip_prefix_append (p s : string) : strip_prefix p (p +:+ s) = Some s.
Proof.
  induction p as [|c p IH]; [by destruct s|].
  change (String c p +:+ s) with (String c (p +:+ s)).
  cbn [strip_prefix]. by rewrite Ascii.eqb_refl.
Qed.

(** The pattern takes a string of the form apart: the subtype is the
    text before the comma, the fill value the text after it, when the first
    has no comma and the second no line feed. *)
Lemma parse_subtype_form sub fv :
  all_chars (cc_match (cc_not ",")) sub = true →
  all_chars (cc_match cc_dot) fv = true →
  _parse_subtype (sparse_form sub fv) =
    inr (sub, match fv with EmptyString => None | _ => Some fv end).
Proof.
  intros Hsub Hfv.
  assert (Hm : re_match xpr (sparse_form sub fv) =
               Some [("fill_value", fv); ("subtype", sub)]).
  { unfold re_match, xpr, sparse_form. cbn [run].
    rewrite strip_prefix_append.
    apply (star_greedy_stops _ sub (", " +:+ fv +:+ "]")); [done|exact eq_refl|].
    rewrite consumed_append, strip_prefix_append.
    rewrite star_lazy_first; [|done|].
    - change (strip_prefix "]" "]") with (Some EmptyString).
      cbn [at_end set_group]. by rewrite (consumed_append fv "]").
    - intros q Hq. destruct (strip_prefix "]" (q +:+ "]")) as [s'|] eqn:Hs'; [|done].
      by rewrite (closing_needs_end q s'). }
  unfold _parse_subtype. rewrite Hm. cbn [group default]. 
  repeat case_decide; try done. by destruct fv.
Qed.

Lemma append_inj_l (p a b : string) : p +:+ a = p +:+ b → a = b.
Proof.
  induction p as [|c p IH]; [done|].
  change (String c p +:+ ?x) with (String c (p +:+ x)). intros [= Heq]. auto.
Qed.

Lemma append_bracket_inj (x y : string) : x +:+ "]" = y +:+ "]" → x = y.
Proof.
  revert y. induction x as [|c x IH]; intros [|d y]; try done.
  - change (String d y +:+ "]") with (String d (y +:+ "]")).
    intros [= _ Heq]. by destruct y.
  - change (String c x +:+ "]") with (String c (x +:+ "]")).
    intros [= _ Heq]. by destruct x.
  - change (String c x +:+ "]") with (String c (x +:+ "]")).
    change (String d y +:+ "]") with (String d (y +:+ "]")).
    intros [= -> Heq]. f_equal. auto.
Qed.

Lemma comma_split (a b x y : string) :
  all_chars (cc_match (cc_not ",")) a = true →
  all_chars (cc_match (cc_not ",")) b = true →
  a +:+ ", " +:+ x = b +:+ ", " +:+ y → a = b ∧ x = y.
Proof.
  revert b. induction a as [|c a IH]; intros [|d b] Ha Hb.
  - intros Heq%(append_inj_l ", "). done.
  - change (String d b +:+ ?x) with (String d (b +:+ x)).
    intros [= <- _]. simpl in Hb. done.
  - change (String c a +:+ ?x) with (String c (a +:+ x)).
    intros [= -> _]. simpl in Ha. done.
  - change (String c a +:+ ?x) with (String c (a +:+ x)).
    change (String d b +:+ ?x) with (String d (b +:+ x)).
    simpl in Ha, Hb.
    apply andb_true_iff in Ha as [_ Ha]. apply andb_true_iff in Hb as [_ Hb].
    intros [= -> Heq]. destruct (IH b Ha Hb Heq) as [-> ->]. done.
Qed.

Lemma sparse_form_inj (a b x y : string) :
  all_chars (cc_match (cc_not ",")) a = true →
  all_chars (cc_match (cc_not ",")) b = true →
  sparse_form a x = sparse_form b y → a = b ∧ x = y.
Proof.
  intros Ha Hb Heq%(append_inj_l "Sparse[").
  apply comma_split in Heq as [-> Heq]; [|done..].
  split; [done|]. by apply append_bracket_inj.
Qed.

Lemma dtype_name_no_comma dt : all_chars (cc_match (cc_not ",")) (dtype_name dt) = true.
Proof. by destruct dt. Qed.

(** What [construct_from_string] does on a string of the form, when the
    subtype text names a dtype: it succeeds exactly when the subtype text is
    the name of the subtype and the fill value text is the text of its
    default fill value, that is, when the string is the name of the result;
    it raises the error of fill values that are not the default otherwise. *)
Lemma construct_from_string_form sub fv dt :
  all_chars (cc_match (cc_not ",")) sub = true →
  all_chars (cc_match cc_dot) fv = true →
  fv ≠ EmptyString →
  dtype_of_string sub = inr dt →
  let dt' := if is_string_dtype dt then object_ else dt in
  construct_from_string (sparse_form sub fv) =
    if bool_decide (sub = dtype_name dt' ∧ fv = py_str (na_value_for_dtype dt'))
    then inr (mk_SparseDtype dt' (na_value_for_dtype dt'))
    else inl (TypeError (msg_fill_value_not_default (sparse_form sub fv))).
Proof.
  intros Hsub Hfv Hne Hdt dt'. unfold construct_from_string.
  change (String.prefix "Sparse" (sparse_form sub fv)) with true. cbv iota.
  rewrite parse_subtype_form by done.
  cbv beta iota.
  rewrite init_of_string, Hdt. cbv zeta. fold dt'.
  destruct fv as [|c fv]; [done|].
  change (__str__ ?r) with (sparse_form (dtype_name (subtype r)) (py_str (fill_value r))).
  cbn [subtype fill_value _dtype _fill_value].
  rewrite (bool_decide_eq_true_2 (is_Some (Some (String c fv)))) by eauto.
  cbn [andb].
  destruct (decide (sub = dtype_name dt'
                    ∧ String c fv = py_str (na_value_for_dtype dt'))) as [[Hs Hf]|Hn].
  - rewrite bool_decide_eq_true_2 by done. by rewrite <- Hs, <- Hf, String.eqb_refl.
  - rewrite bool_decide_eq_false_2 by done.
    destruct (String.eqb_spec
                (sparse_form (dtype_name dt') (py_str (na_value_for_dtype dt')))
                (sparse_form sub (String c fv))) as [Heq|Hneq]; [|done].
    apply sparse_form_inj in Heq; [|apply dtype_name_no_comma|done].
    destruct Heq as [Hs Hf]. destruct Hn. by split.
Qed.

(** The name of a default instance parses back to the instance. *)
Lemma construct_from_name dt :
  dt ≠ str_ →
  construct_from_string (name (mk_SparseDtype dt (na_value_for_dtype dt)))
    = inr (mk_SparseDtype dt (na_value_for_dtype dt)).
Proof. destruct dt; intros Hdt; try (vm_compute; reflexivity). done. Qed.

Lemma eq_dtype_default dt :
  eq_dtype (mk_SparseDtype dt (na_value_for_dtype dt))
           (mk_SparseDtype dt (na_value_for_dtype dt)) = true.
Proof. destruct dt; reflexivity. Qed.

(** C3, as amended.  For an instance [d] whose fill value is the default
    of its subtype, the very value and not only one that equals it,
    [from_string(d.name) == d]: the name, the text [Sparse], the name of the
    subtype and the text of the fill value in brackets, parses back to an
    instance that equals [d]. *)
Theorem from_string_name_roundtrip a f d :
  __init__ a f = inr d →
  fill_value d = na_value_for_dtype (subtype d) →
  name d = "Sparse[" +:+ dtype_name (subtype d) +:+ ", "
             +:+ py_str (fill_value d) +:+ "]"
  ∧ ∃ r, construct_from_string (name d) = inr r
       ∧ __eq__ r (op_dtype d) = inr true.
Proof.
  intros Hinit%init_subtype_not_str Hfill. split; [reflexivity|].
  destruct d as [dt fv]; simpl in *; subst fv.
  exists (mk_SparseDtype dt (na_value_for_dtype dt)). split.
  - by apply construct_from_name.
  - simpl. by rewrite eq_dtype_default.
Qed.

Lemma from_string_name_roundtrip_witness :
  ∃ r, construct_from_string "Sparse[datetime64[ns], NaT]" = inr r
     ∧ __eq__ r (op_dtype sparse_datetime64_NaT) = inr true.
Proof.
  apply (from_string_name_roundtrip (plain (like_str "M8[ns]")) fill_none
           sparse_datetime64_NaT eq_refl eq_refl).
Defined.

(** C3, as stated, fails: the fill value 0.0 of [SparseDtype(int64, 0.0)]
    equals 0, the default of int64, and the instance equals the default
    one; but its name spells the fill value [0.0], and the name is
    refused, for the name of the instance it parses to spells it [0]. *)
Lemma from_string_name_equal_fill_fails :
  let d := mk_SparseDtype int64 (PyFloat (S754_zero false)) in
  __init__ (plain (like_np int64)) (fill_scalar (PyFloat (S754_zero false))) = inr d
  ∧ py_eq (fill_value d) (na_value_for_dtype (subtype d)) = true
  ∧ __eq__ d (op_dtype (mk_SparseDtype int64 (na_value_for_dtype int64))) = inr true
  ∧ name d = "Sparse[int64, 0.0]"
  ∧ construct_from_string (name d) =
      inl (TypeError (msg_fill_value_not_default "Sparse[int64, 0.0]"))
  ∧ ¬ (∃ r, construct_from_string (name d) = inr r).
Proof.
  repeat split; try reflexivity.
  intros (r & Hr). discriminate Hr.
Qed.

(** [from_string("Sparse")] has subtype float64 and fill value NaN. *)
Example from_string_Sparse :
  construct_from_string "Sparse" = inr sparse_float64_nan.
Proof. reflexivity. Qed.

(** [from_string("Sparse[int64, 1]")] fails: the default of int64 is 0. *)
Example from_string_int64_1 :
  ∃ e, construct_from_string "Sparse[int64, 1]" = inl e
     ∧ UnsupportedFillValue "Sparse[int64, 1]" e.
Proof. eexists. split; reflexivity. Qed.

(** C4 fails on the code.  ["Sparse[int, 0]"], which the docstring of
    [construct_from_string] lists as a form of [SparseDtype[np.int64, 0]],
    is refused: the subtype parses to int64, whose default fill value 0 is
    written as the fill value text of the string, but the whole string is
    compared with the name of the result, which spells the subtype
    [int64]. *)
Theorem from_string_alias_with_default_fails :
  _parse_subtype "Sparse[int, 0]" = inr ("int", Some "0")
  ∧ __init__ (plain (like_str "int")) fill_none = inr (mk_SparseDtype int64 (PyInt 0))
  ∧ py_str (na_value_for_dtype int64) = "0"
  ∧ construct_from_string "Sparse[int]" = inr (mk_SparseDtype int64 (PyInt 0))
  ∧ ∃ e, construct_from_string "Sparse[int, 0]" = inl e
       ∧ UnsupportedFillValue "Sparse[int, 0]" e.
Proof. repeat split. eexists. split; reflexivity. Qed.

(** C9.  [d == s] for a string [s] parses [s] with
    [construct_from_string] and compares the result with [d]; when [s]
    does not parse, the answer is [False] and nothing is raised; and
    [d == d.name] when the fill value of [d] is the default of its
    subtype. *)
Theorem eq_string_parses a f d s :
  __init__ a f = inr d →
  (∀ r, construct_from_string s = inr r →
        __eq__ d (op_str s) = __eq__ d (op_dtype r))
  ∧ (∀ e, construct_from_string s = inl e → __eq__ d (op_str s) = inr false)
  ∧ (fill_value d = na_value_for_dtype (subtype d) →
     __eq__ d (op_str (name d)) = inr true).
Proof.
  intros Hinit%init_subtype_not_str. repeat split.
  - intros r Hr. simpl. by rewrite Hr.
  - intros e He. simpl. rewrite He.
    by apply construct_from_string_error in He as [msg ->].
  - intros Hfill. destruct d as [dt fv]; simpl in *; subst fv.
    rewrite construct_from_name by done. by rewrite eq_dtype_default.
Qed.

Lemma eq_string_parses_witness :
  __eq__ sparse_float64_nan (op_str "Sparse[float64, nan]") = inr true
  ∧ __eq__ sparse_float64_nan (op_str "Sparse[float64, 0.0]") = inr false
  ∧ __eq__ sparse_float64_nan (op_str "float64") = inr false.
Proof.
  destruct (eq_string_parses (plain (like_np float64)) fill_none
              sparse_float64_nan "Sparse[float64, 0.0]" eq_refl)
    as (_ & Hfail & Hname).
  destruct (eq_string_parses (plain (like_np float64)) fill_none
              sparse_float64_nan "float64" eq_refl) as (_ & Hfail' & _).
  split; [exact (Hname eq_refl)|]. split.
  - eapply Hfail. reflexivity.
  - eapply Hfail'. reflexivity.
Defined.

(** *** Conversion *)

(** C8, as amended.  Whatever the cast function: [update_dtype] returns
    an instance that it is given as it is, without looking at the fill
    value; for a target [t] that is not sparse and to which the cast of the
    fill value of [d] succeeds with [v], it returns the instance of subtype
    [t] ([object] for a text dtype) and fill value [v]; and when the cast
    fails, it fails with the error of the cast. *)
Theorem update_dtype_casts_fill_value
    (cast : scalar → np_dtype → exception + scalar) d t r :
  cast (fill_value d) t = r →
  (∀ sd, update_dtype cast d (sparse sd) = inr sd)
  ∧ match r with
    | inr v =>
        update_dtype cast d (plain (like_np t)) =
          inr (mk_SparseDtype (if is_string_dtype t then object_ else t) v)
    | inl e => update_dtype cast d (plain (like_np t)) = inl e
    end.
Proof.
  intros Hcast. split; [reflexivity|].
  unfold update_dtype; simpl. rewrite Hcast.
  destruct r as [e|v]; [reflexivity|].
  unfold __init__; simpl. reflexivity.
Qed.

(** [SparseDtype(int64, 0).update_dtype(float64)] is
    [SparseDtype(float64, 0.0)]. *)
Lemma update_dtype_casts_fill_value_witness :
  update_dtype numeric_cast (mk_SparseDtype int64 (PyInt 0)) (plain (like_np float64))
    = inr sparse_float64_zero.
Proof.
  apply (update_dtype_casts_fill_value numeric_cast (mk_SparseDtype int64 (PyInt 0))
           float64 (inr (PyFloat (S754_zero false))) eq_refl).
Defined.

(** [SparseDtype(int, 1).update_dtype(SparseDtype(float, np.nan))] is
    [SparseDtype(float64, nan)]. *)
Example update_dtype_sparse :
  update_dtype numeric_cast (mk_SparseDtype int64 (PyInt 1)) (sparse sparse_float64_nan)
    = inr sparse_float64_nan.
Proof. reflexivity. Qed.

(** C8, as stated, fails: [SparseDtype(float64, NaN).update_dtype(int64)]
    returns no instance, it raises [ValueError], as the docstring of
    [update_dtype] says. *)
Lemma update_dtype_nan_to_int_raises :
  update_dtype numeric_cast sparse_float64_nan (plain (like_np int64))
    = inl (ValueError "Cannot convert non-finite values (NA or inf) to integer")
  ∧ ¬ (∃ r, update_dtype numeric_cast sparse_float64_nan (plain (like_np int64)) = inr r).
Proof. split; [reflexivity|]. intros [r Hr]. discriminate Hr. Qed.

(** *** Construction, parsing and equality, further *)

Lemma strip_prefix_inv (p s s' : string) : strip_prefix p s = Some s' → s = p +:+ s'.
Proof.
  revert s. induction p as [|a p IH]; intros [|b s]; simpl; try done.
  - by intros [= <-].
  - by intros [= <-].
  - destruct (Ascii.eqb_spec a b) as [->|]; [|done].
    intros Hs%IH. by rewrite Hs.
Qed.

Lemma at_end_inv (s : string) :
  at_end s = true → s = EmptyString ∨ s = String newline EmptyString.
Proof.
  destruct s as [|c [|c' s]]; simpl; [by left| |done].
  intros Hc%Ascii.eqb_eq. right. by subst.
Qed.

Lemma star_greedy_inv {R} cc (s : string) (k : string → option R) r :
  star_greedy cc s k = Some r →
  ∃ p t, s = p +:+ t ∧ all_chars (cc_match cc) p = true ∧ k t = Some r.
Proof.
  induction s as [|c s IH]; simpl.
  - intros Hk. by exists EmptyString, EmptyString.
  - destruct (cc_match cc c) eqn:Hc.
    + destruct (star_greedy cc s k) as [r'|] eqn:Hs.
      * intros [= ->]. destruct (IH eq_refl) as (p & t & -> & Hp & Hk).
        exists (String c p), t. simpl. by rewrite Hc, Hp.
      * intros Hk. by exists EmptyString, (String c s).
    + intros Hk. by exists EmptyString, (String c s).
Qed.

Lemma star_lazy_inv {R} cc (s : string) (k : string → option R) r :
  star_lazy cc s k = Some r →
  ∃ p t, s = p +:+ t ∧ all_chars (cc_match cc) p = true ∧ k t = Some r.
Proof.
  induction s as [|c s IH]; simpl.
  - destruct (k EmptyString) eqn:Hk; [|done].
    intros [= ->]. by exists EmptyString, EmptyString.
  - destruct (k (String c s)) eqn:Hk.
    + intros [= ->]. by exists EmptyString, (String c s).
    + destruct (cc_match cc c) eqn:Hc; [|done].
      intros (p & t & -> & Hp & Hk')%IH.
      exists (String c p), t. simpl. by rewrite Hc, Hp.
Qed.

Lemma closing_inv (s : string) g m :
  run (re_cat (re_lit "]") re_eol) s g (λ _ g, Some g) = Some m →
  ∃ nl, s = "]" +:+ nl ∧ (nl = EmptyString ∨ nl = String newline EmptyString) ∧ m = g.
Proof.
  cbn [run]. destruct (strip_prefix "]" s) as [nl|] eqn:Hs; [|done].
  apply strip_prefix_inv in Hs as ->.
  destruct (at_end nl) eqn:Hnl; [|done]. intros [= <-].
  exists nl. by apply at_end_inv in Hnl.
Qed.

Lemma xpr_tail_inv (s : string) g m :
  run xpr_tail s g (λ _ g, Some g) = Some m →
  ∃ fv nl, s = fv +:+ "]" +:+ nl
         ∧ all_chars (cc_match cc_dot) fv = true
         ∧ (nl = EmptyString ∨ nl = String newline EmptyString)
         ∧ (m = ("fill_value", fv) :: g ∨ fv = EmptyString ∧ m = g).
Proof.
  unfold xpr_tail.
  change (run (re_cat ?a ?b) s g ?k) with (run a s g (λ s' g', run b s' g' k)).
  change (run (re_opt ?a) s g ?k)
    with (match run a s g k with Some m => Some m | None => k s g end).
  destruct (run (re_group (Some "fill_value") (re_star_lazy cc_dot)) s g _)
    as [m'|] eqn:Hgroup.
  - intros [= ->]. cbn [run] in Hgroup.
    apply star_lazy_inv in Hgroup as (fv & t & -> & Hfv & Hk).
    rewrite consumed_append in Hk.
    apply (closing_inv t) in Hk as (nl & -> & Hnl & ->).
    exists fv, nl. split; [done|]. split; [done|]. split; [done|]. by left.
  - intros (nl & -> & Hnl & ->)%closing_inv.
    exists EmptyString, nl. split; [done|]. split; [done|]. split; [done|]. by right.
Qed.

(** X16.  What [_parse_subtype] accepts: a string that it parses is
    [Sparse], with the subtype float64, or the text [Sparse], an opening
    bracket, a subtype without a comma, nothing or a comma and a space, a
    fill value text without a line feed, a closing bracket, and nothing or
    one line feed; the fill value is reported when its text is not empty. *)
Theorem parse_subtype_sound (s sub : string) (has : option string) :
  _parse_subtype s = inr (sub, has) →
  (s = "Sparse" ∧ sub = "float64" ∧ has = None)
  ∨ ∃ sep fv nl,
      s = "Sparse[" +:+ sub +:+ sep +:+ fv +:+ "]" +:+ nl
      ∧ (sep = EmptyString ∨ sep = ", ")
      ∧ (nl = EmptyString ∨ nl = String newline EmptyString)
      ∧ all_chars (cc_match (cc_not ",")) sub = true
      ∧ all_chars (cc_match cc_dot) fv = true
      ∧ has = match fv with EmptyString => None | _ => Some fv end.
Proof.
  unfold _parse_subtype.
  destruct (re_match xpr s) as [m|] eqn:Hm.
  2:{ destruct (decide (s = "Sparse")) as [->|]; [|done]. intros [= <- <-]. by left. }
  intros Hres. right.
  unfold re_match, xpr in Hm. fold xpr_tail in Hm. cbn [run] in Hm.
  destruct (strip_prefix "Sparse[" s) as [s1|] eqn:Hs1; [|done].
  apply strip_prefix_inv in Hs1 as ->.
  apply star_greedy_inv in Hm as (sub' & s2 & -> & Hsub & Hm).
  rewrite consumed_append in Hm. cbn [set_group] in Hm.
  assert (Hsep : ∃ sep s3, s2 = sep +:+ s3 ∧ (sep = EmptyString ∨ sep = ", ")
                   ∧ run xpr_tail s3 [("subtype", sub')] (λ _ g, Some g) = Some m).
  { destruct (strip_prefix ", " s2) as [s3|] eqn:Hs3.
    - destruct (run xpr_tail s3 _ _) as [m'|] eqn:Htail.
      + injection Hm as ->. apply strip_prefix_inv in Hs3.
        exists ", ", s3. auto.
      + exists EmptyString, s2. auto.
    - exists EmptyString, s2. auto. }
  destruct Hsep as (sep & s3 & -> & Hsep & Htail).
  apply xpr_tail_inv in Htail as (fv & nl & -> & Hfv & Hnl & Hgroups).
  assert (sub = sub' ∧ has = match fv with EmptyString => None | _ => Some fv end)
    as [-> ->].
  { destruct Hgroups as [->|[-> ->]]; cbn [group default] in Hres;
      repeat case_decide; try done; simplify_eq; [by destruct fv|done]. }
  exists sep, fv, nl. done.
Qed.

Lemma star_greedy_last {R} cc (p : string) (c : ascii) (k : string → option R) r :
  all_chars (cc_match cc) p = true →
  cc_match cc c = true →
  k EmptyString = None →
  k (String c EmptyString) = Some r →
  star_greedy cc (p +:+ String c EmptyString) k = Some r.
Proof.
  intros Hp Hc Hnil Hk. induction p as [|a p IH].
  - change (EmptyString +:+ String c EmptyString) with (String c EmptyString).
    cbn [star_greedy]. by rewrite Hc, Hnil.
  - change (String a p +:+ ?x) with (String a (p +:+ x)). cbn [star_greedy].
    simpl in Hp. apply andb_true_iff in Hp as [-> Hp]. by rewrite IH.
Qed.

Lemma parse_subtype_brackets (sub : string) :
  all_chars (cc_match (cc_not ",")) sub = true →
  _parse_subtype ("Sparse[" +:+ sub +:+ "]") = inr (sub, None).
Proof.
  intros Hsub.
  assert (Hm : re_match xpr ("Sparse[" +:+ sub +:+ "]") =
               Some [("fill_value", EmptyString); ("subtype", sub)]).
  { unfold re_match, xpr. cbn [run]. rewrite strip_prefix_append.
    apply star_greedy_last; [done|done|done|].
    by rewrite (consumed_append sub "]"). }
  unfold _parse_subtype. by rewrite Hm.
Qed.

(** X17.  [Sparse[<subtype>]], for a subtype text without a comma,
    constructs what [SparseDtype(<subtype>)] constructs, and fails as it
    fails. *)
Theorem from_string_brackets (sub : string) :
  all_chars (cc_match (cc_not ",")) sub = true →
  construct_from_string ("Sparse[" +:+ sub +:+ "]")
    = __init__ (plain (like_str sub)) fill_none.
Proof.
  intros Hsub. unfold construct_from_string.
  change (String.prefix "Sparse" ("Sparse[" +:+ sub +:+ "]")) with true. cbv iota.
  rewrite parse_subtype_brackets by done. cbv beta iota.
  by destruct (__init__ (plain (like_str sub)) fill_none).
Qed.

(** X18.  An instance that [construct_from_string] returns has the
    default fill value of its subtype and never the text dtype; its name
    parses back to it; and it equals the string it came from. *)
Theorem from_string_gives_default (s : string) r :
  construct_from_string s = inr r →
  fill_value r = na_value_for_dtype (subtype r)
  ∧ subtype r ≠ str_
  ∧ construct_from_string (name r) = inr r
  ∧ __eq__ r (op_str s) = inr true.
Proof.
  intros Hr.
  assert (Hdef : ∃ dt, dt ≠ str_ ∧ r = mk_SparseDtype dt (na_value_for_dtype dt)).
  { revert Hr. unfold construct_from_string.
    destruct (String.prefix "Sparse" s); [|done].
    destruct (_parse_subtype s) as [[]|[sub has]]; try done.
    rewrite init_of_string. destruct (dtype_of_string sub) as [e|dt]; [done|].
    cbv zeta beta iota.
    match goal with |- (if ?c then inl _ else _) = _ → _ => destruct c end; [done|].
    intros [= <-]. eexists. split; [|done]. by destruct dt. }
  destruct Hdef as (dt & Hdt & ->). simpl.
  split; [done|]. split; [done|].
  split; [by apply construct_from_name|].
  rewrite Hr. by rewrite eq_dtype_default.
Qed.

(** X19.  On [Sparse[<subtype>, <fill_value>]], with a subtype text that
    names a dtype and has no comma and a fill value text that is not empty
    and has no line feed, [construct_from_string] succeeds exactly when the
    subtype text is the name of the subtype and the fill value text is the
    text of its default fill value, and then returns the default instance,
    whose name is the string; in every other case, an alias of the subtype
    among them, it raises the error of fill values that are not the
    default. *)
Theorem from_string_form_canonical sub fv dt :
  all_chars (cc_match (cc_not ",")) sub = true →
  all_chars (cc_match cc_dot) fv = true →
  fv ≠ EmptyString →
  dtype_of_string sub = inr dt →
  let dt' := if is_string_dtype dt then object_ else dt in
  let r := mk_SparseDtype dt' (na_value_for_dtype dt') in
  (sub = dtype_name dt' ∧ fv = py_str (na_value_for_dtype dt') →
   construct_from_string (sparse_form sub fv) = inr r ∧ name r = sparse_form sub fv)
  ∧ (¬ (sub = dtype_name dt' ∧ fv = py_str (na_value_for_dtype dt')) →
     construct_from_string (sparse_form sub fv) =
       inl (TypeError (msg_fill_value_not_default (sparse_form sub fv))))
  ∧ (sub ≠ dtype_name dt' →
     ∃ e, construct_from_string (sparse_form sub fv) = inl e
        ∧ UnsupportedFillValue (sparse_form sub fv) e).
Proof.
  intros Hsub Hfv Hne Hdt dt' r.
  pose proof (construct_from_string_form sub fv dt Hsub Hfv Hne Hdt) as Hform.
  cbv zeta in Hform. fold dt' in Hform.
  split; [|split].
  - intros [Hs Hf]. rewrite Hform, bool_decide_eq_true_2 by done.
    split; [done|]. by rewrite Hs, Hf.
  - intros Hn. by rewrite Hform, bool_decide_eq_false_2.
  - intros Hn. eexists. split; [|reflexivity].
    rewrite Hform, bool_decide_eq_false_2; [done|]. by intros [? _].
Qed.

(** X20.  The errors of [construct_from_string]: a string that does not
    start with [Sparse], or that [_parse_subtype] refuses, raises the
    [TypeError] that it could not be constructed; and no error other than a
    [TypeError] comes out, the [ValueError] of [_parse_subtype] included. *)
Theorem from_string_errors (s : string) :
  (String.prefix "Sparse" s = false →
   construct_from_string s = inl (TypeError (msg_could_not_construct s)))
  ∧ (∀ e, _parse_subtype s = inl e → 
          construct_from_string s = inl (TypeError (msg_could_not_construct s)))
  ∧ (∀ e, construct_from_string s = inl e → ∃ msg, e = TypeError msg).
Proof.
  split; [|split].
  - intros Hp. unfold construct_from_string. by rewrite Hp.
  - intros e He. unfold construct_from_string. rewrite He.
    apply parse_subtype_error in He as ->. by destruct (String.prefix "Sparse" s).
  - intros e. apply construct_from_string_error.
Qed.

(** X21.  [is_dtype], whatever [numpy.dtype] makes of a name: it answers
    [True] for every instance, for every numpy dtype and for every object
    whose [dtype] attribute is one of these, and [False] for a string that
    does not start with [Sparse].  For a string that starts with [Sparse] it
    never answers [False]: where [_parse_subtype] refuses the string, its
    [ValueError] comes out, while [construct_from_string] raises
    [TypeError]; and for [Sparse[sub, fv]] the answer is that of
    [numpy.dtype] on the text [sub] alone, [True] or the error of numpy,
    whatever the fill value text [fv] is. *)
Theorem is_dtype_accepts (numpy_dtype : string → exception + np_dtype) (s : string) :
  (String.prefix "Sparse" s = false → is_dtype numpy_dtype (any_str s) = inr false)
  ∧ (String.prefix "Sparse" s = true → is_dtype numpy_dtype (any_str s) ≠ inr false)
  ∧ (∀ e, String.prefix "Sparse" s = true → _parse_subtype s = inl e →
          is_dtype numpy_dtype (any_str s) = inl (ValueError ("Cannot parse " +:+ s))
          ∧ construct_from_string s = inl (TypeError (msg_could_not_construct s)))
  ∧ (∀ fv, all_chars (cc_match (cc_not ",")) s = true →
           all_chars (cc_match cc_dot) fv = true →
           is_dtype numpy_dtype (any_str (sparse_form s fv)) =
             match numpy_dtype s with
             | inl e => inl e
             | inr _ => inr true
             end)
  ∧ (∀ d, is_dtype numpy_dtype (any_sparse d) = inr true
          ∧ is_dtype numpy_dtype (any_array (inr d)) = inr true)
  ∧ (∀ dt, is_dtype numpy_dtype (any_np dt) = inr true
           ∧ is_dtype numpy_dtype (any_array (inl dt)) = inr true).
Proof.
  split; [|split; [|split; [|split; [|split]]]]; try done.
  - intros Hp. unfold is_dtype. rewrite Hp. f_equal.
    apply bool_decide_eq_false_2. intros ->. done.
  - intros Hp. unfold is_dtype. rewrite Hp.
    destruct (_parse_subtype s) as [e|[sub has]]; [done|].
    by destruct (numpy_dtype sub).
  - intros e Hp He. unfold is_dtype, construct_from_string. rewrite Hp, He.
    by apply parse_subtype_error in He as ->.
  - intros fv Hsub Hfv. unfold is_dtype.
    rewrite parse_subtype_form by done. reflexivity.
Qed.

(** X11.  Constructing from an instance: [SparseDtype(d)] is [d],
    [SparseDtype(d, v)] keeps the subtype of [d] with the fill value [v], and
    a fill value that is not a scalar raises [ValueError]. *)
Theorem init_from_instance a f d :
  __init__ a f = inr d →
  __init__ (sparse d) fill_none = inr d
  ∧ (∀ v, __init__ (sparse d) (fill_scalar v) = inr (mk_SparseDtype (subtype d) v))
  ∧ (∀ r, ∃ msg, __init__ (sparse d) (fill_object r) = inl (ValueError msg)).
Proof.
  intros Hd%init_subtype_not_str. destruct d as [dt fv]. simpl in Hd.
  unfold __init__; simpl. destruct dt; try done; eauto.
Qed.

(** X12.  What [__init__] returns and raises.  An instance never has
    the text dtype as its subtype, has the fill value that was given, and has
    the default of its subtype when none was given with a numpy dtype.  An
    error is the [TypeError] of a string that names no dtype, or else the
    [ValueError] of a fill value that is not a scalar. *)
Theorem init_errors a f :
  match __init__ a f with
  | inr d => subtype d ≠ str_
             ∧ (∀ v, f = fill_scalar v → fill_value d = v)
             ∧ (∀ dt, a = plain (like_np dt) → f = fill_none →
                      fill_value d = na_value_for_dtype (subtype d))
  | inl e =>
      (∃ s, a = plain (like_str s) ∧ dtype_of_string s = inl e
            ∧ e = TypeError ("data type " +:+ squote +:+ s +:+ squote +:+ " not understood"))
      ∨ (∃ r, f = fill_object r
              ∧ e = ValueError ("fill_value must be a scalar. Got " +:+ r +:+ " instead"))
  end.
Proof.
  destruct (__init__ a f) as [e|d] eqn:Hinit.
  - revert Hinit. unfold __init__.
    destruct a as [[dt|s]|d0]; simpl.
    + destruct f; try done. intros [= <-]. right. eauto.
    + destruct (dtype_of_string s) as [e'|dt] eqn:Hs.
      * intros [= <-]. left. exists s. split; [done|]. split; [done|].
        by apply dtype_of_string_error in Hs.
      * destruct f; try done. intros [= <-]. right. eauto.
    + destruct f; try done. intros [= <-]. right. eauto.
  - split; [by eapply init_subtype_not_str|]. revert Hinit. unfold __init__.
    split.
    + intros v ->. revert Hinit. destruct a as [[dt|s]|d0]; simpl.
      * by intros [= <-].
      * destruct (dtype_of_string s); [done|]. by intros [= <-].
      * by intros [= <-].
    + intros dt -> ->. revert Hinit. simpl. by intros [= <-].
Qed.

Lemma SFeqb_refl f : f ≠ S754_nan → SFeqb f f = true.
Proof.
  destruct f as [s|s| |s m e]; try done; intros _; unfold SFeqb, SFcompare.
  - by destruct s.
  - rewrite Z.compare_refl, Pos.compare_cont_refl. by destruct s.
Qed.

Lemma py_eq_refl x : isna x = false → py_eq x x = true.
Proof.
  destruct x as [z|b|f| |s]; simpl; try done; intros Hna.
  - unfold py_eq; simpl. apply Z.eqb_refl.
  - unfold py_eq; simpl. by destruct b.
  - unfold py_eq, num_value. destruct (float_to_Z_exact f); [apply Z.eqb_refl|].
    apply SFeqb_refl. by intros ->.
  - by apply bool_decide_eq_true_2.
Qed.

(** X13.  [d == d] for every instance, whether its fill value is missing
    or not. *)
Theorem eq_reflexive d : __eq__ d (op_dtype d) = inr true.
Proof.
  simpl. f_equal. unfold eq_dtype, _is_na_fill_value.
  rewrite bool_decide_eq_true_2 by done. simpl.
  destruct (isna (fill_value d)) eqn:Hna.
  - assert (isinstance (fill_value d) (type_of (fill_value d)) = true) as ->; [|done].
    unfold isinstance, issubclass. by rewrite bool_decide_eq_true_2.
  - by apply py_eq_refl.
Qed.

Lemma SFeqb_sym f g : SFeqb f g = SFeqb g f.
Proof.
  unfold SFeqb, SFcompare.
  destruct f as [s|s| |s m e], g as [s'|s'| |s' m' e']; try done;
    try (by destruct s, s'); try (by destruct s); try (by destruct s').
  pose proof (Pos.compare_cont_antisym m m' Eq) as Hm. simpl in Hm.
  destruct s, s'; try done;
    rewrite (Z.compare_antisym e e'), <- Hm;
    by destruct (e ?= e')%Z, (Pos.compare_cont Eq m m').
Qed.

Lemma py_eq_sym x y : py_eq x y = py_eq y x.
Proof.
  assert (Hnum : match num_value x, num_value y with
                 | Some (inl a), Some (inl b) => (a =? b)%Z
                 | Some (inr f), Some (inr g) => SFeqb f g
                 | _, _ => false
                 end =
                 match num_value y, num_value x with
                 | Some (inl a), Some (inl b) => (a =? b)%Z
                 | Some (inr f), Some (inr g) => SFeqb f g
                 | _, _ => false
                 end).
  { destruct (num_value x) as [[a|f]|], (num_value y) as [[b|g]|]; try done.
    - apply Z.eqb_sym.
    - apply SFeqb_sym. }
  destruct x as [z|b|f| |s], y as [z'|b'|f'| |s']; try exact Hnum.
  simpl. apply bool_decide_ext. naive_solver.
Qed.

(** X14.  [a == b] and [b == a] agree whenever the fill values of [a]
    and [b] are both missing or both not missing. *)
Theorem eq_symmetric_same_missingness a b :
  isna (fill_value a) = isna (fill_value b) →
  __eq__ a (op_dtype b) = __eq__ b (op_dtype a).
Proof.
  intros Hna. simpl. f_equal. unfold eq_dtype, _is_na_fill_value.
  rewrite <- Hna.
  assert (bool_decide (subtype a = subtype b) = bool_decide (subtype b = subtype a))
    as -> by (apply bool_decide_ext; naive_solver).
  f_equal. destruct (isna (fill_value a)); simpl.
  - apply orb_comm.
  - apply py_eq_sym.
Qed.

(** X15.  Two instances that are equal in both directions have the same
    hash. *)
Theorem eq_both_ways_same_hash a b :
  __eq__ a (op_dtype b) = inr true →
  __eq__ b (op_dtype a) = inr true →
  __hash__ a = __hash__ b.
Proof.
  simpl. intros [= Hab] [= Hba]. apply eq_spec_hash.
  rewrite eq_dtype_spec_or_slip in Hab. apply orb_true_iff in Hab as [Hab|Hslip]; [done|].
  unfold slip in Hslip.
  apply andb_true_iff in Hslip as [[[_ Ha]%andb_true_iff Hb%negb_true_iff]%andb_true_iff _].
  unfold eq_dtype, _is_na_fill_value in Hba. rewrite Hb in Hba.
  rewrite (py_eq_na_r _ _ Ha) in Hba. by rewrite andb_false_r in Hba.
Qed.

Lemma parse_subtype_sound_witness :
  ∃ sep fv nl,
    "Sparse[int64,0]" = "Sparse[" +:+ "int64" +:+ sep +:+ fv +:+ "]" +:+ nl
    ∧ all_chars (cc_match cc_dot) fv = true.
Proof.
  destruct (parse_subtype_sound "Sparse[int64,0]" "int64" (Some ",0") eq_refl)
    as [(Hs & _)|(sep & fv & nl & Hs & _ & _ & _ & Hfv & _)].
  - discriminate Hs.
  - exists sep, fv, nl. split; [exact Hs|exact Hfv].
Defined.

Lemma from_string_brackets_witness :
  construct_from_string "Sparse[datetime64[ns]]" = inr sparse_datetime64_NaT.
Proof. exact (from_string_brackets "datetime64[ns]" eq_refl). Defined.

Lemma from_string_gives_default_witness :
  construct_from_string "Sparse[float64, nan]" = inr sparse_float64_nan
  ∧ __eq__ sparse_float64_nan (op_str "Sparse[float]") = inr true.
Proof.
  destruct (from_string_gives_default "Sparse[float]" sparse_float64_nan eq_refl)
    as (_ & _ & Hname & Heq).
  split; [exact Hname|exact Heq].
Defined.

Lemma from_string_form_canonical_witness :
  construct_from_string "Sparse[float, nan]" =
    inl (TypeError (msg_fill_value_not_default "Sparse[float, nan]"))
  ∧ construct_from_string "Sparse[bool, False]" = inr (mk_SparseDtype bool_ (PyBool false)).
Proof.
  destruct (from_string_form_canonical "float" "nan" float64 eq_refl eq_refl
              ltac:(discriminate) eq_refl) as (_ & Hfail & _).
  destruct (from_string_form_canonical "bool" "False" bool_ eq_refl eq_refl
              ltac:(discriminate) eq_refl) as (Hok & _).
  split.
  - apply Hfail. intros [Hs _]. discriminate Hs.
  - apply Hok. split; reflexivity.
Defined.

Lemma from_string_errors_witness :
  construct_from_string "int64" = inl (TypeError (msg_could_not_construct "int64"))
  ∧ construct_from_string "Sparse[int64" =
      inl (TypeError (msg_could_not_construct "Sparse[int64")).
Proof.
  destruct (from_string_errors "int64") as (Hprefix & _).
  destruct (from_string_errors "Sparse[int64") as (_ & Hparse & _).
  split.
  - apply Hprefix. reflexivity.
  - apply (Hparse (ValueError "Cannot parse Sparse[int64")). reflexivity.
Defined.

Lemma is_dtype_accepts_witness :
  let numpy_dtype := λ sub : string,
    if String.eqb sub "int64" then inr int64
    else inl (TypeError "data type not understood") in
  is_dtype numpy_dtype (any_str "int64") = inr false
  ∧ is_dtype numpy_dtype (any_str "Sparse[int64") =
      inl (ValueError "Cannot parse Sparse[int64")
  ∧ is_dtype numpy_dtype (any_str "Sparse[int64, 1]") = inr true
  ∧ is_dtype numpy_dtype (any_str "Sparse[int32, 0]") =
      inl (TypeError "data type not understood").
Proof.
  intros numpy_dtype.
  destruct (is_dtype_accepts numpy_dtype "int64") as (Hno & _ & _ & Hform & _).
  destruct (is_dtype_accepts numpy_dtype "Sparse[int64") as (_ & _ & Hraise & _).
  destruct (is_dtype_accepts numpy_dtype "int32") as (_ & _ & _ & Hform' & _).
  split; [|split; [|split]].
  - apply Hno. reflexivity.
  - apply (Hraise (ValueError "Cannot parse Sparse[int64")); reflexivity.
  - apply (Hform "1"); reflexivity.
  - apply (Hform' "0"); reflexivity.
Defined.

Lemma init_from_instance_witness :
  __init__ (sparse sparse_float64_zero) fill_none = inr sparse_float64_zero.
Proof.
  destruct (init_from_instance (plain (like_str "float"))
              (fill_scalar (PyFloat (S754_zero false))) sparse_float64_zero eq_refl)
    as [Hsame _].
  exact Hsame.
Defined.

Lemma eq_symmetric_same_missingness_witness :
  __eq__ (mk_SparseDtype int64 (PyInt 0)) (op_dtype (mk_SparseDtype int64 (PyBool false)))
  = __eq__ (mk_SparseDtype int64 (PyBool false)) (op_dtype (mk_SparseDtype int64 (PyInt 0))).
Proof.
  exact (eq_symmetric_same_missingness (mk_SparseDtype int64 (PyInt 0))
           (mk_SparseDtype int64 (PyBool false)) eq_refl).
Defined.

Lemma eq_both_ways_same_hash_witness :
  __hash__ (mk_SparseDtype int64 (PyInt 0))
  = __hash__ (mk_SparseDtype int64 (PyFloat (S754_zero true))).
Proof.
  exact (eq_both_ways_same_hash (mk_SparseDtype int64 (PyInt 0))
           (mk_SparseDtype int64 (PyFloat (S754_zero true))) eq_refl eq_refl).
Defined.

End DtypeProps.
